(** * QSAR modelling notebook: a shallow embedding of QSAR_modelling.ipynb

    The notebook is a sequence of code cells over pandas tables.  A table is
    embedded as the list of its rows in table order, a cell of a text column
    as [option string] ([None] is the missing value NaN that [read_csv]
    produces for an empty field), and a value of the float64 target column
    as the rational it denotes.  The names bound by the cells ([df], [mt], [dataset_sorted],
    [scaffolds], [predictions]) keep their notebook names. *)

From Stdlib Require Import List String Ascii Bool Arith ZArith QArith Qround Lia.
From Stdlib Require Import Permutation Sorted.
From Stdlib Require PrimFloat FloatOps SpecFloat Uint63.
Import ListNotations.
Local Open Scope nat_scope.
Local Open Scope string_scope.
Local Open Scope list_scope.

(* ================================================================== *)
(** * Data model *)
(* ================================================================== *)

(** One row of [data/papyrus_data.tsv]: the columns the notebook reads. *)
Module Papyrus.
Record Row : Type := mkRow {
  accession : option string;
  Quality : option string;
  SMILES : string;
  pchembl_value_Median : option Q
}.
Definition DataFrame : Type := list Row.
End Papyrus.

(** One row of [dataset.getDF()] once [prepareDataset] and [addScaffolds]
    have run: the index label, the structure, the target value (rows with an
    empty target are not part of a QSPRDataset) and the scaffold column,
    which holds a structure string for every row. *)
Module Prepared.
Record Row : Type := mkRow {
  QSPRID : string;
  SMILES : string;
  pchembl_value_Median : Q;
  Scaffold_Murcko : string
}.
Definition DataFrame : Type := list Row.
End Prepared.

(* ================================================================== *)
(** * The pandas operations the cells use *)
(* ================================================================== *)

Module Pandas.

(** [col == v] on a text column: a missing cell compares unequal. *)
Definition eq_mask (cell : option string) (v : string) : bool :=
  match cell with
  | Some s => String.eqb s v
  | None => false
  end.

(** [col.isin(values)]: a missing cell is in no list of strings. *)
Definition isin (cell : option string) (values : list string) : bool :=
  match cell with
  | Some s => existsb (String.eqb s) values
  | None => false
  end.

(** [df[mask]]: boolean indexing keeps the rows whose mask bit is set, in
    table order, in a new frame. *)
Definition getitem_mask {A : Type} (mask : A -> bool) (df : list A) : list A :=
  filter mask df.

(** [seq[:k]] for a Python integer [k]: a non-negative [k] keeps the first
    [k] items (all of them when there are fewer), a negative [k] drops the
    last [-k] items.  No bound is ever checked. *)
Definition slice_to {A : Type} (k : Z) (l : list A) : list A :=
  if (0 <=? k)%Z then firstn (Z.to_nat k) l
  else firstn (List.length l - Z.to_nat (- k)) l.

(** A Series: index labels with their values, in order. *)
Definition Series (V : Type) : Type := list (string * V).

(** ** [sort_values(ascending=False)]

    Sorting by a rational key, largest first.  pandas leaves the order of
    rows with equal keys to its sorting routine; here they keep their table
    order. *)
Fixpoint insert_desc {A : Type} (key : A -> Q) (x : A) (l : list A) : list A :=
  match l with
  | [] => [x]
  | y :: l' =>
      if Qle_bool (key y) (key x) then x :: y :: l'
      else y :: insert_desc key x l'
  end.

Fixpoint sort_values_desc {A : Type} (key : A -> Q) (l : list A) : list A :=
  match l with
  | [] => []
  | x :: l' => insert_desc key x (sort_values_desc key l')
  end.

(** The order of the result: the larger key first. *)
Definition key_ge {A : Type} (key : A -> Q) (a b : A) : Prop :=
  (key b <= key a)%Q.

(** ** [groupby(key)[col]]

    One pass over the rows: a row's value goes to the end of the bucket of
    its key, a key seen for the first time opens a bucket.  The groups are
    then ordered by key, as [groupby] does by default. *)
Fixpoint bucket_add (k : string) (v : Q) (groups : list (string * list Q))
    : list (string * list Q) :=
  match groups with
  | [] => [(k, [v])]
  | (k', vs) :: g =>
      if String.eqb k k' then (k', vs ++ [v]) :: g
      else (k', vs) :: bucket_add k v g
  end.

Definition buckets {A : Type} (key : A -> string) (col : A -> Q) (df : list A)
    : list (string * list Q) :=
  fold_left (fun g r => bucket_add (key r) (col r) g) df [].

Fixpoint insert_key {V : Type} (x : string * V) (l : list (string * V))
    : list (string * V) :=
  match l with
  | [] => [x]
  | y :: l' =>
      if String.leb (fst x) (fst y) then x :: y :: l'
      else y :: insert_key x l'
  end.

Fixpoint sort_index {V : Type} (l : list (string * V)) : list (string * V) :=
  match l with
  | [] => []
  | x :: l' => insert_key x (sort_index l')
  end.

Definition groupby {A : Type} (key : A -> string) (col : A -> Q) (df : list A)
    : list (string * list Q) :=
  sort_index (buckets key col df).

(** The values of the rows that carry the key [k], in table order: what
    the group of [k] is to hold. *)
Definition group_values {A : Type} (key : A -> string) (col : A -> Q)
    (k : string) (df : list A) : list Q :=
  map col (filter (fun r => String.eqb (key r) k) df).

Definition agg {V : Type} (f : list Q -> V) (g : list (string * list Q)) : Series V :=
  map (fun kv => (fst kv, f (snd kv))) g.

(** ** [pd.concat([a, b], axis=1)]

    The two Series become the columns of a frame.  Its index is the index
    of [a] followed by the labels only [b] has; a label one Series lacks
    gets a missing value in that column. *)
Fixpoint loc {V : Type} (label : string) (s : Series V) : option V :=
  match s with
  | [] => None
  | (k, v) :: s' => if String.eqb label k then Some v else loc label s'
  end.

Definition has_label {V : Type} (label : string) (s : Series V) : bool :=
  existsb (String.eqb label) (map fst s).

Definition union_index {V W : Type} (a : Series V) (b : Series W) : list string :=
  map fst a ++ filter (fun k => negb (has_label k a)) (map fst b).

Definition concat_columns {V W : Type} (a : Series V) (b : Series W)
    : list (string * (option V * option W)) :=
  map (fun k => (k, (loc k a, loc k b))) (union_index a b).

End Pandas.

(* ================================================================== *)
(** * Means: the exact one and a float64 one *)
(* ================================================================== *)



(** Binary64 arithmetic by the kernel's floats, for running the cells: a
    rational is rounded to the nearest float as the quotient of its numerator
    and denominator, a finite float is the rational it denotes. *)
Module Float64.

Definition of_Z (z : Z) : PrimFloat.float :=
  match z with
  | Z0 => PrimFloat.zero
  | Zpos p => PrimFloat.of_uint63 (Uint63.of_Z (Zpos p))
  | Zneg p => PrimFloat.opp (PrimFloat.of_uint63 (Uint63.of_Z (Zpos p)))
  end.

Definition of_Q (q : Q) : PrimFloat.float :=
  PrimFloat.div (of_Z (Qnum q)) (of_Z (Zpos (Qden q))).

Definition to_Q (f : PrimFloat.float) : Q :=
  match FloatOps.Prim2SF f with
  | SpecFloat.S754_finite s m e =>
      let v := match e with
               | Zneg k => Zpos m # (2 ^ k)
               | _ => inject_Z (Zpos m * 2 ^ e)
               end in
      Qred (if s then Qopp v else v)
  | _ => 0%Q
  end.

(** A float64 mean: the values are added from the left, each sum rounded,
    and the total is divided by their number.  On values whose sums are
    exact, such as small whole numbers, every way of summing gives this
    result. *)
Definition mean (vs : list Q) : Q :=
  to_Q (PrimFloat.div
          (fold_left (fun acc v => PrimFloat.add acc (of_Q v)) vs PrimFloat.zero)
          (of_Z (Z.of_nat (List.length vs)))).

End Float64.

(* ================================================================== *)
(** * Cell "Create your dataset" *)
(* ================================================================== *)

Definition MY_TARGET : string := "P21802".

(** The two filter statements as a function of the table: the accession
    filter, then the quality filter on its result. *)
Definition filter_target (target : string) (qualities : list string)
    (df : Papyrus.DataFrame) : Papyrus.DataFrame :=
  let df := Pandas.getitem_mask
              (fun r => Pandas.eq_mask (Papyrus.accession r) target) df in
  let df := Pandas.getitem_mask
              (fun r => Pandas.isin (Papyrus.Quality r) qualities) df in
  df.

(** A row matches both predicates. *)
Definition matches (target : string) (qualities : list string)
    (r : Papyrus.Row) : bool :=
  Pandas.eq_mask (Papyrus.accession r) target
  && Pandas.isin (Papyrus.Quality r) qualities.

(** Modelled from the spec: the class [MoleculeTable] of QSPRPred is not part
    of the repository.  Section 2 and 3 of the specification describe it as a
    wrapper of the filtered table: a named collection of the records it was
    created from, which [getDF] hands back. *)
Record MoleculeTable : Type := mkMoleculeTable {
  mt_df : Papyrus.DataFrame;
  mt_name : string;
  mt_store_dir : string
}.

Definition getDF (mt : MoleculeTable) : Papyrus.DataFrame := mt_df mt.

(** ** The kernel state: objects and the names bound to them

    A statement [df = df[mask]] allocates the filtered frame as a new object
    and rebinds the name; the object the name was bound to stays in the
    store.  Objects are addressed by their position in the store. *)

Inductive Object : Type :=
| ODataFrame (d : Papyrus.DataFrame)
| OMoleculeTable (m : MoleculeTable).

Record Kernel : Type := mkKernel {
  heap : list Object;
  globals : list (string * nat)
}.

Definition empty_kernel : Kernel := mkKernel [] [].

Inductive Exn : Type :=
| NameError (x : string)
| TypeError
| DanglingReference.

Definition Cell (A : Type) : Type := Kernel -> Exn + (A * Kernel).

Definition ret {A : Type} (a : A) : Cell A := fun k => inr (a, k).

Definition raise {A : Type} (e : Exn) : Cell A := fun _ => inl e.

Definition bind {A B : Type} (c : Cell A) (f : A -> Cell B) : Cell B :=
  fun k => match c k with
           | inl e => inl e
           | inr (a, k') => f a k'
           end.

Declare Scope cell_scope.
Delimit Scope cell_scope with cell.
Notation "x <- c ;; f" := (bind c (fun x => f))
  (at level 61, c at next level, right associativity) : cell_scope.
Notation "c ;; f" := (bind c (fun _ => f))
  (at level 61, right associativity) : cell_scope.
Local Open Scope cell_scope.

Fixpoint lookup_name (x : string) (g : list (string * nat)) : option nat :=
  match g with
  | [] => None
  | (y, l) :: g' => if String.eqb x y then Some l else lookup_name x g'
  end.

(** A new object goes to the end of the store. *)
Definition alloc (o : Object) : Cell nat :=
  fun k => inr (List.length (heap k), mkKernel (heap k ++ [o]) (globals k)).

(** Reading a name. *)
Definition load (x : string) : Cell nat :=
  fun k => match lookup_name x (globals k) with
           | Some l => inr (l, k)
           | None => inl (NameError x)
           end.

(** Binding a name: the newest binding shadows the older ones. *)
Definition store (x : string) (l : nat) : Cell unit :=
  fun k => inr (tt, mkKernel (heap k) ((x, l) :: globals k)).

Definition deref (l : nat) : Cell Object :=
  fun k => match nth_error (heap k) l with
           | Some o => inr (o, k)
           | None => inl DanglingReference
           end.

Definition as_frame (o : Object) : Cell Papyrus.DataFrame :=
  match o with
  | ODataFrame d => ret d
  | OMoleculeTable _ => raise TypeError
  end.

Definition as_table (o : Object) : Cell MoleculeTable :=
  match o with
  | OMoleculeTable m => ret m
  | ODataFrame _ => raise TypeError
  end.

(** [x = x[mask]] *)
Definition assign_filtered (x : string) (mask : Papyrus.Row -> bool) : Cell unit :=
  l <- load x ;;
  o <- deref l ;;
  d <- as_frame o ;;
  l' <- alloc (ODataFrame (Pandas.getitem_mask mask d)) ;;
  store x l'.

(** The two filter statements of the cell. *)
Definition filter_statements (target : string) (qualities : list string) : Cell unit :=
  assign_filtered "df" (fun r => Pandas.eq_mask (Papyrus.accession r) target) ;;
  assign_filtered "df" (fun r => Pandas.isin (Papyrus.Quality r) qualities).

(** The value a name is bound to, when it is a frame. *)
Definition frame_of (x : string) : Cell Papyrus.DataFrame :=
  l <- load x ;; o <- deref l ;; as_frame o.

(** The whole cell; [papyrus_data] is what [read_csv] returns, the result is
    the frame the last expression [mt.getDF()] displays. *)
Definition create_dataset (papyrus_data : Papyrus.DataFrame)
    (target : string) (qualities : list string) : Cell Papyrus.DataFrame :=
  l <- alloc (ODataFrame papyrus_data) ;;
  store "df" l ;;
  filter_statements target qualities ;;
  d <- frame_of "df" ;;
  m <- alloc (OMoleculeTable (mkMoleculeTable d target "data")) ;;
  store "mt" m ;;
  m' <- load "mt" ;;
  o <- deref m' ;;
  t <- as_table o ;;
  ret (getDF t).

(** A table as in the end-to-end scenario: 100 records for accession [X],
    80 of them of quality [High], among records of another accession. *)
Definition synthetic_row (acc quality : string) : Papyrus.Row :=
  Papyrus.mkRow (Some acc) (Some quality) "c1ccccc1" (Some (13 # 2)).

Definition synthetic_table : Papyrus.DataFrame :=
  repeat (synthetic_row "X" "High") 50
  ++ repeat (synthetic_row "Y" "High") 7
  ++ repeat (synthetic_row "X" "Medium") 20
  ++ repeat (synthetic_row "X" "High") 30
  ++ [Papyrus.mkRow None (Some "High") "CCO" None].

(* ================================================================== *)
(** * Cells "Data Visualization" *)
(* ================================================================== *)

Definition NUM_COMPOUNDS : Z := 10.
Definition NUM_SCAFFOLDS : Z := 10.
Definition MIN_COMPOUNDS : Z := 5.

(** [dataset.getDF().sort_values(by='pchembl_value_Median', ascending=False)] *)
Definition dataset_sorted (df : Prepared.DataFrame) : Prepared.DataFrame :=
  Pandas.sort_values_desc Prepared.pchembl_value_Median df.

(** [dataset_sorted[:NUM_COMPOUNDS]] *)
Definition top_compounds (num : Z) (df : Prepared.DataFrame) : Prepared.DataFrame :=
  Pandas.slice_to num (dataset_sorted df).

(** The structures handed to the drawing routine. *)
Definition drawn_compounds (num : Z) (df : Prepared.DataFrame) : list string :=
  map Prepared.SMILES (top_compounds num df).

(** [dataset_sorted['pchembl_value_Median'][idx]]: a lookup by index label.
    It is a number when one row carries the label; with several such rows
    pandas returns a Series, which the format [:.2f] rejects, and a label no
    row carries is a KeyError. *)
Definition at_label (idx : string) (df : Prepared.DataFrame) : option Q :=
  match filter (fun r => String.eqb (Prepared.QSPRID r) idx) df with
  | [r] => Some (Prepared.pchembl_value_Median r)
  | _ => None
  end.

Fixpoint traverse {A B : Type} (f : A -> option B) (l : list A) : option (list B) :=
  match l with
  | [] => Some []
  | x :: l' =>
      match f x with
      | None => None
      | Some y =>
          match traverse f l' with
          | None => None
          | Some ys => Some (y :: ys)
          end
      end
  end.

(** The legends of the drawing: one value per drawn compound. *)
Definition compound_legends (num : Z) (df : Prepared.DataFrame) : option (list Q) :=
  traverse (fun idx => at_label idx (dataset_sorted df))
           (map Prepared.QSPRID (top_compounds num df)).

(** One row of the frame [scaffolds]: the scaffold is the index label. *)
Record ScaffoldRow : Type := mkScaffoldRow {
  scaffold : string;
  Average_pchembl_value : option Q;
  Count : option nat
}.

(** The frame [scaffolds] before the count filter: the mean per scaffold,
    sorted largest first, with the count per scaffold joined to it.

    [mean] is [.mean()] of one group, the float64 mean pandas computes from
    the values of the group in table order.  How pandas sums (in which order,
    with which compensation) and rounds is not part of the notebook, so the
    operation is a parameter of the cell: every property of the cell below
    holds for whatever function of the group's values it is. *)
Definition scaffolds_table (mean : list Q -> Q) (df : Prepared.DataFrame)
    : list ScaffoldRow :=
  let groups :=
    Pandas.groupby Prepared.Scaffold_Murcko Prepared.pchembl_value_Median df in
  let scaffolds := Pandas.sort_values_desc snd (Pandas.agg mean groups) in
  (* [.count()]: the number of values present in each group *)
  let counts := Pandas.agg (@List.length Q) groups in
  map (fun row => mkScaffoldRow (fst row) (fst (snd row)) (snd (snd row)))
      (Pandas.concat_columns scaffolds counts).

(** [scaffolds['Count'] > MIN_COMPOUNDS]: a missing count compares false. *)
Definition count_gt (min_compounds : Z) (row : ScaffoldRow) : bool :=
  match Count row with
  | Some c => (min_compounds <? Z.of_nat c)%Z
  | None => false
  end.

(** [scaffolds = scaffolds[scaffolds['Count'] > MIN_COMPOUNDS]] *)
Definition drop_small (min_compounds : Z) (table : list ScaffoldRow) : list ScaffoldRow :=
  Pandas.getitem_mask (count_gt min_compounds) table.

Definition scaffolds (mean : list Q -> Q) (min_compounds : Z)
    (df : Prepared.DataFrame) : list ScaffoldRow :=
  drop_small min_compounds (scaffolds_table mean df).

(** [scaffolds.index[:NUM_SCAFFOLDS]] *)
Definition drawn_scaffolds (mean : list Q -> Q) (num min_compounds : Z)
    (df : Prepared.DataFrame) : list string :=
  Pandas.slice_to num (map scaffold (scaffolds mean min_compounds df)).

(** The records of a frame that share a scaffold, and their target values. *)
Definition sharing (s : string) (df : Prepared.DataFrame) : Prepared.DataFrame :=
  filter (fun r => String.eqb (Prepared.Scaffold_Murcko r) s) df.

Definition targets (df : Prepared.DataFrame) : list Q :=
  map Prepared.pchembl_value_Median df.

(** Rows of the scaffold frame in descending order of their mean. *)
Definition mean_ge (a b : ScaffoldRow) : Prop :=
  match Average_pchembl_value a, Average_pchembl_value b with
  | Some x, Some y => (y <= x)%Q
  | _, _ => False
  end.

(** The number of records of a dataset that share a scaffold. *)
Definition compound_count (s : string) (df : Prepared.DataFrame) : Z :=
  Z.of_nat (List.length (sharing s df)).

(** The Series [scaffolds] after the first statement of the cell: the mean
    per scaffold, sorted. *)
Definition scaffold_means (mean : list Q -> Q) (df : Prepared.DataFrame)
    : Pandas.Series Q :=
  Pandas.sort_values_desc snd
    (Pandas.agg mean
       (Pandas.groupby Prepared.Scaffold_Murcko Prepared.pchembl_value_Median df)).

(** A small prepared frame used to run the cells. *)
Definition example_dataset : Prepared.DataFrame :=
  [ Prepared.mkRow "P21802_0" "c1ccccc1O" (6 # 1) "c1ccccc1";
    Prepared.mkRow "P21802_1" "c1ccncc1C" (15 # 2) "c1ccncc1";
    Prepared.mkRow "P21802_2" "c1ccccc1N" (8 # 1) "c1ccccc1";
    Prepared.mkRow "P21802_3" "c1ccccc1C" (5 # 1) "c1ccccc1";
    Prepared.mkRow "P21802_4" "C1CC1O" (9 # 1) "C1CC1" ].

(** The rows of the scaffold frame of the example, by the float64 mean:
    6.333333333333333 is the float nearest to the mean of 6, 8 and 5. *)
Definition benzene_row : ScaffoldRow :=
  mkScaffoldRow "c1ccccc1" (Some (7130699410003285 # 1125899906842624)) (Some 3).

Definition pyridine_row : ScaffoldRow :=
  mkScaffoldRow "c1ccncc1" (Some (15 # 2)) (Some 1).

Definition cyclopropane_row : ScaffoldRow :=
  mkScaffoldRow "C1CC1" (Some (9 # 1)) (Some 1).

(* ================================================================== *)
(** * Cell "Preparing data for modelling": the random split *)
(* ================================================================== *)

(** The ways a fraction of the record count is made a whole number of
    records. *)
Inductive Rounding : Type :=
| RoundDown
| RoundUp
| RoundHalfUp.

Definition round_count (rounding : Rounding) (x : Q) : Z :=
  match rounding with
  | RoundDown => Qfloor x
  | RoundUp => Qceiling x
  | RoundHalfUp => Qfloor (x + (1 # 2))
  end.

(** The number of holdout records for a holdout fraction. *)
Definition n_test (rounding : Rounding) (test_fraction : Q) (n : nat) : nat :=
  Z.to_nat (round_count rounding (test_fraction * inject_Z (Z.of_nat n))).

(** The rows at the given positions, in the order of the positions. *)
Definition take {A : Type} (positions : list nat) (records : list A) : list A :=
  flat_map (fun i => match nth_error records i with
                     | Some r => [r]
                     | None => []
                     end) positions.

(** A list without its item at position [j]. *)
Fixpoint remove_at {A : Type} (j : nat) (l : list A) : list A :=
  match l, j with
  | [], _ => []
  | _ :: l', 0 => l'
  | x :: l', S j' => x :: remove_at j' l'
  end.

Section RandomSplit.

(** The random source of the split, as the seed fixes it: [rng k] is the
    [k]-th number the generator yields.  Nothing is assumed of it. *)
Variable rng : nat -> nat.

(** Simple random sampling: [count] positions are drawn from the pool one
    after the other, each draw picking among the positions still in the pool
    and taking the one picked out of it.  The result is the positions drawn
    and the positions left. *)
Fixpoint sample (k : nat) (pool : list nat) (count : nat) : list nat * list nat :=
  match count with
  | 0 => ([], pool)
  | S count' =>
      let j := rng k mod List.length pool in
      match nth_error pool j with
      | None => ([], pool)
      | Some i =>
          let drawn_rest := sample (S k) (remove_at j pool) count' in
          (i :: fst drawn_rest, snd drawn_rest)
      end
  end.

Definition test_positions (rounding : Rounding) (test_fraction : Q) (n : nat)
    : list nat :=
  fst (sample 0 (seq 0 n) (n_test rounding test_fraction n)).

Definition train_positions (rounding : Rounding) (test_fraction : Q) (n : nat)
    : list nat :=
  snd (sample 0 (seq 0 n) (n_test rounding test_fraction n)).

(** Modelled from the spec: [randomsplit] and [prepareDataset] belong to
    QSPRPred and are not part of the repository.  Section 4.2 of the
    specification: the records are split into a training and a holdout set
    by simple random sampling with a fixed holdout fraction and a seeded
    generator, the set sizes matching the fraction within rounding.  The
    holdout set is a sample of the positions of the records, of the size the
    fraction gives; the training set is the records at the positions left.
    The specification names neither the generator nor the rounding, so both
    are parameters.  The result is the pair (training set, holdout set),
    which the notebook reads as [dataset.y] and [dataset.y_ind]. *)
Definition randomsplit {A : Type} (rounding : Rounding) (test_fraction : Q)
    (records : list A) : list A * list A :=
  let n := List.length records in
  (take (train_positions rounding test_fraction n) records,
   take (test_positions rounding test_fraction n) records).

End RandomSplit.

(** [rand_split = randomsplit(0.2)] *)
Definition rand_split (rng : nat -> nat) (rounding : Rounding) {A : Type}
    (records : list A) : list A * list A :=
  randomsplit rng rounding (1 # 5) records.

(** A random source for running the split. *)
Definition example_rng (k : nat) : nat := 7 * k + 3.

(* ================================================================== *)
(** * Cell "Make predictions for your own compounds" *)
(* ================================================================== *)

Definition list_of_smiles : list string :=
  [ "OCCc1ccn2cnccc12";
    "C1CC1Oc1cc2ccncn2c1";
    "CNC(=O)c1nccc2cccn12" ].

Section Prediction.

(** The molecule type and the parser of the chemistry toolkit, the
    descriptor calculator the model was trained with, and the fitted
    estimator applied to one descriptor vector. *)
Variable Mol : Type.
Variable MolFromSmiles : string -> option Mol.
Variable Model : Type.
Variable feature_calculator : Mol -> list bool.
Variable predict : Model -> list bool -> Q.

(** Modelled from the spec: [predictMols] belongs to QSPRPred and is not
    part of the repository.  Section 4.4 of the specification: it accepts
    a list of structure strings, computes for each the descriptor
    representation used in training and returns one predicted value per
    input structure; the reference behaviour on a structure that does not
    parse is to raise, which is [None] here.  A prediction is a row with
    one value per target property, of which the notebook has one. *)
Fixpoint predictMols (model : Model) (mols : list string) : option (list (list Q)) :=
  match mols with
  | [] => Some []
  | smi :: rest =>
      match MolFromSmiles smi with
      | None => None
      | Some m =>
          match predictMols model rest with
          | None => None
          | Some preds => Some ([predict model (feature_calculator m)] :: preds)
          end
      end
  end.

(** [[f'{pred[0]:.3f}' for pred in predictions]]: the value shown under
    each drawn molecule; [pred[0]] of an empty row is an IndexError. *)
Definition prediction_legends (predictions : list (list Q)) : option (list Q) :=
  traverse (fun pred => nth_error pred 0) predictions.

(** The prediction a single structure gets. *)
Definition prediction_of (model : Model) (smi : string) : option Q :=
  match MolFromSmiles smi with
  | None => None
  | Some m => Some (predict model (feature_calculator m))
  end.

End Prediction.

(** A toolkit and a model for running the cell: every non-empty string
    parses, the descriptor marks the ring-closure digits, and the model adds
    the set bits to a base value. *)
Definition toy_parse (smi : string) : option string :=
  if String.eqb smi "" then None else Some smi.

Definition toy_descriptor (m : string) : list bool :=
  map (fun c => orb (Ascii.eqb c "1"%char) (Ascii.eqb c "2"%char)) (list_ascii_of_string m).

Definition toy_predict (base : Q) (bits : list bool) : Q :=
  (base + inject_Z (Z.of_nat (List.length (filter (fun b => b) bits))))%Q.

(* ================================================================== *)
(** * The remaining statements of the cells *)
(* ================================================================== *)

(** The first statements of the cell "Create your dataset", up to the
    construction of the molecule table: the table is read and bound to [df],
    then filtered twice. *)
Definition read_and_filter (papyrus_data : Papyrus.DataFrame)
    (target : string) (qualities : list string) : Cell unit :=
  l <- alloc (ODataFrame papyrus_data) ;;
  store "df" l ;;
  filter_statements target qualities.

(** The two filter statements in the other order. *)
Definition filter_quality_first (target : string) (qualities : list string)
    (df : Papyrus.DataFrame) : Papyrus.DataFrame :=
  let df := Pandas.getitem_mask
              (fun r => Pandas.isin (Papyrus.Quality r) qualities) df in
  let df := Pandas.getitem_mask
              (fun r => Pandas.eq_mask (Papyrus.accession r) target) df in
  df.

(** The cell without its quality statement, as its comment proposes for
    keeping the data of every quality. *)
Definition filter_accession_only (target : string) (df : Papyrus.DataFrame)
    : Papyrus.DataFrame :=
  Pandas.getitem_mask (fun r => Pandas.eq_mask (Papyrus.accession r) target) df.

(** [enumerate(seq)] *)
Fixpoint enumerate_from {A : Type} (start : nat) (l : list A) : list (nat * A) :=
  match l with
  | [] => []
  | x :: l' => (start, x) :: enumerate_from (S start) l'
  end.

Definition enumerate {A : Type} (l : list A) : list (nat * A) := enumerate_from 0 l.

(** [scaffolds[column][scaffold]]: the lookup of a scaffold label in one
    column of the frame.  One row with the label gives its cell; no such row
    is a KeyError; with several the result is a Series. *)
Definition column_at {V : Type} (column : ScaffoldRow -> V) (label : string)
    (frame : list ScaffoldRow) : option V :=
  match filter (fun r => String.eqb (scaffold r) label) frame with
  | [r] => Some (column r)
  | _ => None
  end.

(** The legends of the scaffold drawing,
    [f"{idx}: {average:.2f} ({count})"] for [idx, scaffold] in
    [enumerate(scaffolds.index[:NUM_SCAFFOLDS])]: the position, the mean and
    the count of each drawn scaffold.  The format [:.2f] of the mean is what
    fails when the lookup does not give a single cell. *)
Definition scaffold_legends (mean : list Q -> Q) (num min_compounds : Z)
    (df : Prepared.DataFrame) : option (list (nat * option Q * option nat)) :=
  let frame := scaffolds mean min_compounds df in
  traverse
    (fun item =>
       match column_at Average_pchembl_value (snd item) frame with
       | None => None
       | Some average =>
           match column_at Count (snd item) frame with
           | None => None
           | Some count => Some (fst item, average, count)
           end
       end)
    (enumerate (Pandas.slice_to num (map scaffold frame))).

(** The sizes of the groups of a grouping. *)
Definition sizes (g : list (string * list Q)) : list nat :=
  map (fun kv => List.length (snd kv)) g.

(** The sum of the column [Count], a missing count adding nothing. *)
Definition count_total (frame : list ScaffoldRow) : nat :=
  fold_right (fun row acc => match Count row with
                             | Some c => c + acc
                             | None => acc
                             end) 0 frame.

(* ================================================================== *)
(** * Cell "Show all compounds from scaffold N" *)
(* ================================================================== *)

Definition SCAFFOLD_INDEX : Z := 0.

(** [seq[i]] for a Python integer [i]: positions count from the front for
    [i >= 0] and from the back for [i < 0]; a position outside the sequence
    is an IndexError, here [None]. *)
Definition getitem_int {A : Type} (i : Z) (l : list A) : option A :=
  if (0 <=? i)%Z then nth_error l (Z.to_nat i)
  else if (- Z.of_nat (List.length l) <=? i)%Z
       then nth_error l (Z.to_nat (Z.of_nat (List.length l) + i))
       else None.

(** [scaffold_df]: the records of the dataset with the given scaffold,
    sorted by target value, largest first. *)
Definition scaffold_df (s : string) (df : Prepared.DataFrame) : Prepared.DataFrame :=
  Pandas.sort_values_desc Prepared.pchembl_value_Median
    (Pandas.getitem_mask
       (fun r => String.eqb (Prepared.Scaffold_Murcko r) s) df).

(** The cell: [scaffold = scaffolds.index[SCAFFOLD_INDEX]], then the frame of
    its compounds. *)
Definition scaffold_compounds (mean : list Q -> Q) (index min_compounds : Z)
    (df : Prepared.DataFrame) : option Prepared.DataFrame :=
  match getitem_int index (map scaffold (scaffolds mean min_compounds df)) with
  | None => None
  | Some s => Some (scaffold_df s df)
  end.

(** The legends of its drawing: the value of every compound, looked up by
    index label in [scaffold_df]. *)
Definition scaffold_compound_legends (s : string) (df : Prepared.DataFrame)
    : option (list Q) :=
  traverse (fun idx => at_label idx (scaffold_df s df))
           (map Prepared.QSPRID (scaffold_df s df)).

(** A frame in which two records carry the same index label. *)
Definition duplicate_label_dataset : Prepared.DataFrame :=
  [ Prepared.mkRow "P21802_0" "c1ccccc1O" (6 # 1) "c1ccccc1";
    Prepared.mkRow "P21802_0" "c1ccncc1C" (15 # 2) "c1ccncc1";
    Prepared.mkRow "P21802_2" "c1ccccc1N" (8 # 1) "c1ccccc1" ].

(* ================================================================== *)
(** * Properties of the filter cell *)
(* ================================================================== *)

Lemma eq_mask_true (cell : option string) (v : string) :
  Pandas.eq_mask cell v = true <-> cell = Some v.
Proof.
  destruct cell as [s|]; simpl.
  - rewrite String.eqb_eq. split; congruence.
  - split; discriminate.
Qed.

Lemma isin_true (cell : option string) (values : list string) :
  Pandas.isin cell values = true <-> exists s, cell = Some s /\ In s values.
Proof.
  destruct cell as [s|]; simpl.
  - rewrite existsb_exists. split.
    + intros [x [Hin Heq]]. apply String.eqb_eq in Heq. subst x. eauto.
    + intros [x [Heq Hin]]. injection Heq as <-.
      exists s. split; [assumption | apply String.eqb_refl].
  - split; [discriminate | intros [s [H _]]; discriminate].
Qed.

Lemma getitem_mask_compose {A : Type} (p q : A -> bool) (df : list A) :
  Pandas.getitem_mask q (Pandas.getitem_mask p df)
  = Pandas.getitem_mask (fun r => p r && q r) df.
Proof.
  unfold Pandas.getitem_mask.
  induction df as [|r df IH]; simpl; [reflexivity|].
  destruct (p r) eqn:Hp; simpl.
  - destruct (q r); rewrite IH; reflexivity.
  - exact IH.
Qed.

Lemma getitem_mask_idempotent {A : Type} (mask : A -> bool) (df : list A) :
  Pandas.getitem_mask mask (Pandas.getitem_mask mask df) = Pandas.getitem_mask mask df.
Proof.
  rewrite getitem_mask_compose. unfold Pandas.getitem_mask.
  apply filter_ext. intros r. destruct (mask r); reflexivity.
Qed.

Lemma filter_target_matches (target : string) (qualities : list string)
    (df : Papyrus.DataFrame) :
  filter_target target qualities df = filter (matches target qualities) df.
Proof.
  unfold filter_target. rewrite getitem_mask_compose. reflexivity.
Qed.

Lemma filter_target_idempotent (target : string) (qualities : list string)
    (df : Papyrus.DataFrame) :
  filter_target target qualities (filter_target target qualities df)
  = filter_target target qualities df.
Proof.
  rewrite !filter_target_matches.
  exact (getitem_mask_idempotent (matches target qualities) df).
Qed.

Lemma filter_none {A : Type} (p : A -> bool) (l : list A) :
  (forall x, In x l -> p x = false) -> filter p l = [].
Proof.
  induction l as [|x l IH]; simpl; intros H; [reflexivity|].
  rewrite (H x (or_introl eq_refl)). apply IH. intros y Hy. apply H. now right.
Qed.

(** ** Running the statements *)

Lemma nth_error_heap_grows (h : list Object) (o o' : Object) (i : nat) :
  nth_error h i = Some o -> nth_error (h ++ [o']) i = Some o.
Proof.
  intros H. rewrite nth_error_app1; [assumption|].
  apply nth_error_Some. congruence.
Qed.

Lemma nth_error_heap_new (h : list Object) (o : Object) :
  nth_error (h ++ [o]) (List.length h) = Some o.
Proof.
  rewrite nth_error_app2 by lia. now rewrite Nat.sub_diag.
Qed.

(** One statement [x = x[mask]] on a kernel where [x] names a frame: it
    succeeds, the new kernel binds [x] to the filtered frame, and every
    object of the old store is still in place. *)
Lemma assign_filtered_run (x : string) (mask : Papyrus.Row -> bool)
    (k : Kernel) (l : nat) (d : Papyrus.DataFrame) :
  lookup_name x (globals k) = Some l ->
  nth_error (heap k) l = Some (ODataFrame d) ->
  assign_filtered x mask k =
    inr (tt, mkKernel (heap k ++ [ODataFrame (Pandas.getitem_mask mask d)])
                      ((x, List.length (heap k)) :: globals k)).
Proof.
  intros Hx Hl. unfold assign_filtered, bind, load, deref.
  rewrite Hx, Hl. reflexivity.
Qed.

Lemma filter_statements_run (target : string) (qualities : list string)
    (k : Kernel) (l : nat) (d : Papyrus.DataFrame) :
  lookup_name "df" (globals k) = Some l ->
  nth_error (heap k) l = Some (ODataFrame d) ->
  exists k',
    filter_statements target qualities k = inr (tt, k')
    /\ lookup_name "df" (globals k') = Some (S (List.length (heap k)))
    /\ nth_error (heap k') (S (List.length (heap k)))
       = Some (ODataFrame (filter_target target qualities d))
    /\ (forall i o, nth_error (heap k) i = Some o -> nth_error (heap k') i = Some o).
Proof.
  intros Hx Hl. unfold filter_statements, bind.
  rewrite (assign_filtered_run _ _ k l d Hx Hl).
  erewrite assign_filtered_run; cycle 1.
  - simpl. reflexivity.
  - simpl. apply nth_error_heap_new.
  - eexists. split; [reflexivity|]. cbn [heap globals]. repeat split.
    + cbn [lookup_name]. rewrite String.eqb_refl, length_app. simpl. f_equal. lia.
    + replace (S (List.length (heap k)))
        with (List.length (heap k ++ [ODataFrame (Pandas.getitem_mask
               (fun r => Pandas.eq_mask (Papyrus.accession r) target) d)]))
        by (rewrite length_app; simpl; lia).
      apply nth_error_heap_new.
    + intros i o Hi. now apply nth_error_heap_grows, nth_error_heap_grows.
Qed.

Lemma frame_of_run (x : string) (k : Kernel) (l : nat) (d : Papyrus.DataFrame) :
  lookup_name x (globals k) = Some l ->
  nth_error (heap k) l = Some (ODataFrame d) ->
  frame_of x k = inr (d, k).
Proof.
  intros Hx Hl. unfold frame_of, bind, load, deref. rewrite Hx, Hl. reflexivity.
Qed.

(** C5.  Filtering a bioactivity table by a target accession and an allowed
    quality set returns exactly the rows that match both predicates, in table
    order: a row is in the result if and only if it is a row of the table
    whose accession is the target and whose quality is in the allowed set.
    In particular, for a table with 100 records for accession X of which 80
    have quality High, filtering by X and High yields exactly 80 records. *)
Theorem filter_target_exact :
  forall (target : string) (qualities : list string) (df : Papyrus.DataFrame),
    filter_target target qualities df = filter (matches target qualities) df
    /\ (forall r,
          In r (filter_target target qualities df)
          <-> In r df
              /\ Papyrus.accession r = Some target
              /\ exists q, Papyrus.Quality r = Some q /\ In q qualities)
    /\ (List.length
          (filter (fun r => Pandas.eq_mask (Papyrus.accession r) "X") df) = 100 ->
        List.length
          (filter (fun r => Pandas.isin (Papyrus.Quality r) ["High"])
             (filter (fun r => Pandas.eq_mask (Papyrus.accession r) "X") df)) = 80 ->
        List.length (filter_target "X" ["High"] df) = 80).
Proof.
  intros target qualities df. split; [apply filter_target_matches|]. split.
  - intros r. rewrite filter_target_matches, filter_In. unfold matches.
    rewrite andb_true_iff, eq_mask_true, isin_true. tauto.
  - intros _ H80. exact H80.
Qed.

Lemma filter_target_exact_witness :
  List.length (filter_target "X" ["High"] synthetic_table) = 80.
Proof.
  apply (proj2 (proj2 (filter_target_exact "X" ["High"] synthetic_table)));
    vm_compute; reflexivity.
Defined.

(** C6.  Filtering is idempotent and leaves its source untouched.  On a
    kernel where [df] names a table, the two filter statements succeed, and
    running them a second time succeeds and leaves [df] naming the same rows
    as after the first run; every object that was in the store before,
    the source table included, is unchanged after either run.  For every
    predicate, filtering a filtered table again returns it as it is. *)
Theorem filtering_idempotent_pure :
  forall (target : string) (qualities : list string)
         (k : Kernel) (l : nat) (d : Papyrus.DataFrame),
    lookup_name "df" (globals k) = Some l ->
    nth_error (heap k) l = Some (ODataFrame d) ->
    exists k1 k2,
      filter_statements target qualities k = inr (tt, k1)
      /\ filter_statements target qualities k1 = inr (tt, k2)
      /\ frame_of "df" k1 = inr (filter_target target qualities d, k1)
      /\ frame_of "df" k2 = inr (filter_target target qualities d, k2)
      /\ (forall i o, nth_error (heap k) i = Some o ->
            nth_error (heap k1) i = Some o /\ nth_error (heap k2) i = Some o)
      /\ (forall (mask : Papyrus.Row -> bool) (df : Papyrus.DataFrame),
            Pandas.getitem_mask mask (Pandas.getitem_mask mask df)
            = Pandas.getitem_mask mask df).
Proof.
  intros target qualities k l d Hx Hl.
  destruct (filter_statements_run target qualities k l d Hx Hl)
    as [k1 [Hrun1 [Hx1 [Hl1 Hkeep1]]]].
  destruct (filter_statements_run target qualities k1 _ _ Hx1 Hl1)
    as [k2 [Hrun2 [Hx2 [Hl2 Hkeep2]]]].
  rewrite filter_target_idempotent in Hl2.
  exists k1, k2. repeat split; auto.
  - now apply frame_of_run with (l := S (List.length (heap k))).
  - now apply frame_of_run with (l := S (List.length (heap k1))).
  - intros mask df. apply getitem_mask_idempotent.
Qed.

Lemma filtering_idempotent_pure_witness :
  exists k1 k2,
    filter_statements "X" ["High"]
      (mkKernel [ODataFrame synthetic_table] [("df", 0)]) = inr (tt, k1)
    /\ filter_statements "X" ["High"] k1 = inr (tt, k2)
    /\ frame_of "df" k1 = inr (filter_target "X" ["High"] synthetic_table, k1)
    /\ frame_of "df" k2 = inr (filter_target "X" ["High"] synthetic_table, k2)
    /\ nth_error (heap k2) 0 = Some (ODataFrame synthetic_table).
Proof.
  destruct (filtering_idempotent_pure "X" ["High"]
              (mkKernel [ODataFrame synthetic_table] [("df", 0)])
              0 synthetic_table eq_refl eq_refl)
    as [k1 [k2 [H1 [H2 [H3 [H4 [H5 _]]]]]]].
  exists k1, k2. repeat split; try assumption.
  exact (proj2 (H5 0 (ODataFrame synthetic_table) eq_refl)).
Defined.

(** C9.  When the accession and quality filters match no row of the table,
    the cell raises no error: the filter returns the empty table, and the
    dataset constructed from it, which the cell binds to [mt] and displays,
    is empty. *)
Theorem empty_filter_result_no_error :
  forall (papyrus_data : Papyrus.DataFrame) (target : string)
         (qualities : list string),
    (forall r, In r papyrus_data -> matches target qualities r = false) ->
    filter_target target qualities papyrus_data = []
    /\ exists k l,
         create_dataset papyrus_data target qualities empty_kernel = inr ([], k)
         /\ lookup_name "mt" (globals k) = Some l
         /\ nth_error (heap k) l
            = Some (OMoleculeTable (mkMoleculeTable [] target "data"))
         /\ nth_error (heap k) 0 = Some (ODataFrame papyrus_data).
Proof.
  intros data target qualities Hnone.
  assert (Hempty : filter_target target qualities data = []).
  { rewrite filter_target_matches. now apply filter_none. }
  split; [exact Hempty|].
  unfold create_dataset, bind at 1 2. cbn [alloc store empty_kernel heap globals].
  destruct (filter_statements_run target qualities
              (mkKernel ([] ++ [ODataFrame data]) [("df", 0)]) 0 data
              eq_refl eq_refl) as [k1 [Hrun [Hx [Hl Hkeep]]]].
  cbn [heap globals List.length app] in *.
  unfold bind at 1. rewrite Hrun.
  unfold bind at 1. rewrite (frame_of_run "df" k1 _ _ Hx Hl), Hempty.
  unfold bind, alloc, store, load, deref. cbn [heap globals lookup_name].
  rewrite String.eqb_refl. cbn [heap]. rewrite nth_error_heap_new.
  cbn [as_table ret getDF mt_df].
  eexists. eexists. split; [reflexivity|]. cbn [heap globals lookup_name].
  rewrite String.eqb_refl. split; [reflexivity|]. split.
  - apply nth_error_heap_new.
  - apply nth_error_heap_grows, Hkeep. reflexivity.
Qed.

Lemma empty_filter_result_no_error_witness :
  filter_target "Z" ["High"] synthetic_table = []
  /\ exists k l,
       create_dataset synthetic_table "Z" ["High"] empty_kernel = inr ([], k)
       /\ lookup_name "mt" (globals k) = Some l
       /\ nth_error (heap k) l = Some (OMoleculeTable (mkMoleculeTable [] "Z" "data"))
       /\ nth_error (heap k) 0 = Some (ODataFrame synthetic_table).
Proof.
  apply (empty_filter_result_no_error synthetic_table "Z" ["High"]).
  intros r Hr.
  assert (H : forallb (fun r => negb (matches "Z" ["High"] r)) synthetic_table = true)
    by (vm_compute; reflexivity).
  rewrite forallb_forall in H. specialize (H r Hr).
  now apply negb_true_iff in H.
Defined.

(* ================================================================== *)
(** * Further properties of the filter cell *)
(* ================================================================== *)

Lemma isin_subset (cell : option string) (qualities qualities' : list string) :
  (forall s, In s qualities -> In s qualities') ->
  Pandas.isin cell qualities = true -> Pandas.isin cell qualities' = true.
Proof.
  intros Hsub H. apply isin_true in H. destruct H as [s [-> Hin]].
  apply isin_true. exists s. split; [reflexivity | now apply Hsub].
Qed.

(** X1.  The two filter statements commute: filtering by quality first and
    by accession second gives the same table, rows in the same order, as the
    order the cell uses. *)
Theorem filter_statements_commute :
  forall (target : string) (qualities : list string) (df : Papyrus.DataFrame),
    filter_quality_first target qualities df = filter_target target qualities df.
Proof.
  intros target qualities df. unfold filter_quality_first, filter_target.
  rewrite !getitem_mask_compose. unfold Pandas.getitem_mask.
  apply filter_ext. intros r. apply andb_comm.
Qed.

(** X2.  Narrowing the allowed qualities can be done on a filtered table:
    when every quality of the narrower list is in the wider list, filtering
    the result of the wider filter gives what filtering the whole table by
    the narrower list gives; the same holds for filtering the table that was
    filtered by accession only. *)
Theorem filter_narrowing :
  forall (target : string) (qualities qualities' : list string)
         (df : Papyrus.DataFrame),
    (forall s, In s qualities -> In s qualities') ->
    filter_target target qualities (filter_target target qualities' df)
    = filter_target target qualities df
    /\ filter_target target qualities (filter_accession_only target df)
       = filter_target target qualities df.
Proof.
  intros target qualities qualities' df Hsub. split.
  - rewrite !filter_target_matches.
    change (filter (matches target qualities) (filter (matches target qualities') df))
      with (Pandas.getitem_mask (matches target qualities)
              (Pandas.getitem_mask (matches target qualities') df)).
    rewrite getitem_mask_compose. unfold Pandas.getitem_mask.
    apply filter_ext. intros r. unfold matches.
    destruct (Pandas.eq_mask (Papyrus.accession r) target); simpl;
      [|reflexivity].
    destruct (Pandas.isin (Papyrus.Quality r) qualities) eqn:Hq;
      [|apply andb_false_r].
    now rewrite (isin_subset _ _ _ Hsub Hq).
  - unfold filter_target, filter_accession_only.
    now rewrite getitem_mask_idempotent.
Qed.

Lemma filter_narrowing_witness :
  filter_target "X" ["High"] (filter_target "X" ["High"; "Medium"] synthetic_table)
  = filter_target "X" ["High"] synthetic_table
  /\ filter_target "X" ["High"] (filter_accession_only "X" synthetic_table)
     = filter_target "X" ["High"] synthetic_table.
Proof.
  apply (filter_narrowing "X" ["High"] ["High"; "Medium"] synthetic_table).
  simpl. tauto.
Defined.

(** X3.  Filtering a table that was already filtered for one accession by a
    different accession leaves no row, whatever the quality lists. *)
Theorem filter_other_accession_empty :
  forall (target target' : string) (qualities qualities' : list string)
         (df : Papyrus.DataFrame),
    target <> target' ->
    filter_target target' qualities' (filter_target target qualities df) = [].
Proof.
  intros target target' qualities qualities' df Hne.
  rewrite (filter_target_matches target'). apply filter_none.
  intros r Hr. rewrite filter_target_matches in Hr.
  apply filter_In in Hr. destruct Hr as [_ Hm]. unfold matches in *.
  apply andb_true_iff in Hm. destruct Hm as [Hacc _].
  apply eq_mask_true in Hacc.
  destruct (Pandas.eq_mask (Papyrus.accession r) target') eqn:Hacc';
    [|reflexivity].
  apply eq_mask_true in Hacc'. congruence.
Qed.

Lemma filter_other_accession_empty_witness :
  filter_target "Y" ["High"] (filter_target "X" ["High"] synthetic_table) = [].
Proof.
  apply (filter_other_accession_empty "X" "Y" ["High"] ["High"] synthetic_table).
  discriminate.
Defined.

(** X4.  The read and the two filter statements do not depend on what the
    kernel held before: from every kernel state they succeed, bind [df] to
    the rows of the table just read that match both predicates, add three
    objects to the store and leave every earlier object as it was. *)
Theorem read_and_filter_from_any_state :
  forall (papyrus_data : Papyrus.DataFrame) (target : string)
         (qualities : list string) (k : Kernel),
    exists k',
      read_and_filter papyrus_data target qualities k = inr (tt, k')
      /\ frame_of "df" k' = inr (filter_target target qualities papyrus_data, k')
      /\ List.length (heap k') = List.length (heap k) + 3
      /\ nth_error (heap k') (List.length (heap k)) = Some (ODataFrame papyrus_data)
      /\ (forall i o, nth_error (heap k) i = Some o -> nth_error (heap k') i = Some o).
Proof.
  intros data target qualities k.
  unfold read_and_filter, bind at 1 2. cbn [alloc store heap globals].
  set (k0 := mkKernel (heap k ++ [ODataFrame data])
                      (("df", List.length (heap k)) :: globals k)).
  assert (Hx : lookup_name "df" (globals k0) = Some (List.length (heap k)))
    by (cbn [k0 globals lookup_name]; now rewrite String.eqb_refl).
  assert (Hl : nth_error (heap k0) (List.length (heap k)) = Some (ODataFrame data))
    by (cbn [k0 heap]; apply nth_error_heap_new).
  destruct (filter_statements_run target qualities k0 _ data Hx Hl)
    as [k' [Hrun [Hx' [Hl' Hkeep]]]].
  exists k'. split; [exact Hrun|]. split; [exact (frame_of_run "df" k' _ _ Hx' Hl')|].
  assert (Hlen0 : List.length (heap k0) = List.length (heap k) + 1)
    by (cbn [k0 heap]; rewrite length_app; reflexivity).
  split; [|split].
  - unfold filter_statements, bind in Hrun.
    rewrite (assign_filtered_run _ _ k0 _ data Hx Hl) in Hrun.
    erewrite assign_filtered_run in Hrun;
      [| cbn [globals lookup_name]; now rewrite String.eqb_refl
       | cbn [heap]; apply nth_error_heap_new].
    injection Hrun as <-. cbn [heap]. rewrite !length_app. simpl. lia.
  - now apply Hkeep.
  - intros i o Hi. apply Hkeep. cbn [k0 heap]. now apply nth_error_heap_grows.
Qed.

(* ================================================================== *)
(** * Properties of the pandas operations *)
(* ================================================================== *)

Section SortValues.

Context {A : Type} (key : A -> Q).

Local Abbreviation key_ge := (Pandas.key_ge key).

Lemma insert_desc_perm (x : A) (l : list A) :
  Permutation (x :: l) (Pandas.insert_desc key x l).
Proof.
  induction l as [|y l IH]; simpl; [constructor; constructor|].
  destruct (Qle_bool (key y) (key x)).
  - apply Permutation_refl.
  - eapply perm_trans; [apply perm_swap|]. now apply perm_skip.
Qed.

Lemma sort_values_desc_perm (l : list A) :
  Permutation l (Pandas.sort_values_desc key l).
Proof.
  induction l as [|x l IH]; simpl; [constructor|].
  eapply perm_trans; [apply perm_skip, IH | apply insert_desc_perm].
Qed.

Lemma sort_values_desc_length (l : list A) :
  List.length (Pandas.sort_values_desc key l) = List.length l.
Proof. symmetry. apply Permutation_length, sort_values_desc_perm. Qed.

Lemma insert_desc_sorted (x : A) (l : list A) :
  StronglySorted key_ge l -> StronglySorted key_ge (Pandas.insert_desc key x l).
Proof.
  induction 1 as [|y l Hs IH Hall]; simpl.
  - constructor; constructor.
  - destruct (Qle_bool (key y) (key x)) eqn:Hle.
    + apply Qle_bool_iff in Hle.
      constructor; [constructor; assumption|].
      constructor; [exact Hle|].
      eapply Forall_impl; [|exact Hall].
      intros z Hz. unfold Pandas.key_ge in *. now apply Qle_trans with (key y).
    + assert (Hlt : (key x < key y)%Q).
      { apply Qnot_le_lt. intros Hc. apply Qle_bool_iff in Hc. congruence. }
      constructor; [exact IH|].
      apply (Permutation_Forall (insert_desc_perm x l)).
      constructor; [|exact Hall].
      unfold Pandas.key_ge. now apply Qlt_le_weak.
Qed.

Lemma sort_values_desc_sorted (l : list A) :
  StronglySorted key_ge (Pandas.sort_values_desc key l).
Proof.
  induction l as [|x l IH]; simpl; [constructor|].
  now apply insert_desc_sorted.
Qed.

End SortValues.

Section SortIndex.

Context {V : Type}.

Lemma insert_key_perm (x : string * V) (l : list (string * V)) :
  Permutation (x :: l) (Pandas.insert_key x l).
Proof.
  induction l as [|y l IH]; simpl; [constructor; constructor|].
  destruct (String.leb (fst x) (fst y)).
  - apply Permutation_refl.
  - eapply perm_trans; [apply perm_swap|]. now apply perm_skip.
Qed.

Lemma sort_index_perm (l : list (string * V)) :
  Permutation l (Pandas.sort_index l).
Proof.
  induction l as [|x l IH]; simpl; [constructor|].
  eapply perm_trans; [apply perm_skip, IH | apply insert_key_perm].
Qed.

End SortIndex.

(** ** Slices *)

Lemma slice_to_length {A : Type} (num : nat) (l : list A) :
  List.length (Pandas.slice_to (Z.of_nat num) l) = Nat.min (List.length l) num.
Proof.
  unfold Pandas.slice_to.
  destruct (Z.leb_spec 0 (Z.of_nat num)) as [_|Hneg]; [|lia].
  rewrite Nat2Z.id, length_firstn. apply Nat.min_comm.
Qed.

Lemma slice_to_prefix {A : Type} (num : nat) (l : list A) :
  Pandas.slice_to (Z.of_nat num) l = firstn num l.
Proof.
  unfold Pandas.slice_to.
  destruct (Z.leb_spec 0 (Z.of_nat num)) as [_|Hneg]; [|lia].
  now rewrite Nat2Z.id.
Qed.

(** A negative limit does not select "the top" entries: it drops from the
    end, and is never an error either. *)
Lemma slice_to_negative {A : Type} (k : Z) (l : list A) :
  (k < 0)%Z ->
  List.length (Pandas.slice_to k l) = List.length l - Z.to_nat (- k).
Proof.
  intros Hk. unfold Pandas.slice_to.
  destruct (Z.leb_spec 0 k) as [Hpos|_]; [lia|].
  rewrite length_firstn. lia.
Qed.

Section TopK.

Variable mean : list Q -> Q.

(** C10.  Selecting the top K entries of a sorted table with N rows returns
    min(N, K) entries, also when K exceeds N: the slice is a total function,
    so there is no error to raise.  This holds for any table, for the
    compounds drawn from the sorted dataset (N is the number of records)
    and for the scaffolds drawn from the filtered scaffold frame (N is the
    number of surviving scaffolds). *)
Theorem top_k_length :
  forall (num : nat),
    (forall (A : Type) (table : list A),
        List.length (Pandas.slice_to (Z.of_nat num) table)
        = Nat.min (List.length table) num)
    /\ (forall df : Prepared.DataFrame,
          List.length (top_compounds (Z.of_nat num) df)
          = Nat.min (List.length df) num
          /\ List.length (drawn_compounds (Z.of_nat num) df)
             = Nat.min (List.length df) num)
    /\ (forall (min_compounds : Z) (df : Prepared.DataFrame),
          List.length (drawn_scaffolds mean (Z.of_nat num) min_compounds df)
          = Nat.min (List.length (scaffolds mean min_compounds df)) num).
Proof.
  intros num. split; [intros A table; apply slice_to_length|]. split.
  - intros df. unfold drawn_compounds, top_compounds, dataset_sorted.
    rewrite length_map, slice_to_length, sort_values_desc_length. auto.
  - intros min_compounds df. unfold drawn_scaffolds.
    now rewrite slice_to_length, length_map.
Qed.

End TopK.

(** ** Lookup by label *)

Section Labels.

Context {V : Type}.

Lemma loc_In (k : string) (v : V) (s : Pandas.Series V) :
  Pandas.loc k s = Some v -> In (k, v) s.
Proof.
  induction s as [|[k' v'] s IH]; simpl; [discriminate|].
  destruct (String.eqb_spec k k') as [->|Hne].
  - intros [= ->]. now left.
  - intros H. right. now apply IH.
Qed.

Lemma loc_None (k : string) (s : Pandas.Series V) :
  Pandas.loc k s = None <-> ~ In k (map fst s).
Proof.
  induction s as [|[k' v'] s IH]; simpl; [tauto|].
  destruct (String.eqb_spec k k') as [->|Hne].
  - split; [discriminate | intros H; exfalso; apply H; now left].
  - rewrite IH. split; [intros H [Heq|Hin]; [congruence | tauto] | tauto].
Qed.

Lemma In_loc (k : string) (v : V) (s : Pandas.Series V) :
  NoDup (map fst s) -> In (k, v) s -> Pandas.loc k s = Some v.
Proof.
  induction s as [|[k' v'] s IH]; simpl; [tauto|].
  intros Hnd [Heq|Hin]; inversion Hnd as [|? ? Hnotin Hnd']; subst.
  - injection Heq as -> ->. now rewrite String.eqb_refl.
  - destruct (String.eqb_spec k k') as [->|Hne].
    + exfalso. apply Hnotin. now apply (in_map fst) in Hin.
    + now apply IH.
Qed.

Lemma has_label_true (k : string) (s : Pandas.Series V) :
  Pandas.has_label k s = true <-> In k (map fst s).
Proof.
  unfold Pandas.has_label. rewrite existsb_exists. split.
  - intros [x [Hin Heq]]. apply String.eqb_eq in Heq. now subst.
  - intros Hin. exists k. split; [assumption | apply String.eqb_refl].
Qed.

End Labels.

(** ** Grouping *)

Section GroupBy.

Context {A : Type} (key : A -> string) (col : A -> Q).

Local Abbreviation group_values := (Pandas.group_values key col).

Lemma loc_bucket_add (k k' : string) (v : Q) (g : list (string * list Q)) :
  Pandas.loc k (Pandas.bucket_add k' v g)
  = if String.eqb k k'
    then Some (match Pandas.loc k g with
               | Some vs => vs ++ [v]
               | None => [v]
               end)
    else Pandas.loc k g.
Proof.
  induction g as [|[k0 vs0] g IH]; simpl.
  - destruct (String.eqb k k'); reflexivity.
  - destruct (String.eqb_spec k' k0) as [->|Hne]; simpl.
    + destruct (String.eqb k k0); reflexivity.
    + rewrite IH. destruct (String.eqb_spec k k0) as [->|Hne'].
      * destruct (String.eqb_spec k0 k') as [->|_]; [congruence | reflexivity].
      * reflexivity.
Qed.

Lemma keys_bucket_add (k : string) (v : Q) (g : list (string * list Q)) :
  (In k (map fst g) /\ map fst (Pandas.bucket_add k v g) = map fst g)
  \/ (~ In k (map fst g) /\ map fst (Pandas.bucket_add k v g) = map fst g ++ [k]).
Proof.
  induction g as [|[k0 vs0] g IH]; simpl.
  - right. tauto.
  - destruct (String.eqb_spec k k0) as [->|Hne]; simpl.
    + left. tauto.
    + destruct IH as [[Hin Heq]|[Hnin Heq]]; rewrite Heq.
      * left. tauto.
      * right. split; [|reflexivity]. intros [H|H]; [congruence | tauto].
Qed.

Lemma NoDup_bucket_add (k : string) (v : Q) (g : list (string * list Q)) :
  NoDup (map fst g) -> NoDup (map fst (Pandas.bucket_add k v g)).
Proof.
  intros Hnd. destruct (keys_bucket_add k v g) as [[_ Heq]|[Hnin Heq]];
    rewrite Heq; [assumption|].
  apply NoDup_app; [assumption | repeat constructor; simpl; tauto |].
  intros x Hx [<-|[]]. tauto.
Qed.

Lemma fold_bucket_add_loc (df : list A) (g : list (string * list Q)) (k : string) :
  Pandas.loc k (fold_left (fun g r => Pandas.bucket_add (key r) (col r) g) df g)
  = match Pandas.loc k g with
    | Some vs => Some (vs ++ group_values k df)
    | None => match group_values k df with
              | [] => None
              | vs => Some vs
              end
    end.
Proof.
  revert g. induction df as [|r df IH]; intros g; simpl.
  - unfold Pandas.group_values. simpl. destruct (Pandas.loc k g); [now rewrite app_nil_r | reflexivity].
  - rewrite IH, loc_bucket_add. unfold Pandas.group_values. simpl.
    rewrite (String.eqb_sym (key r) k).
    destruct (String.eqb k (key r)); simpl.
    + destruct (Pandas.loc k g); [now rewrite <- app_assoc | reflexivity].
    + reflexivity.
Qed.

Lemma fold_bucket_add_NoDup (df : list A) (g : list (string * list Q)) :
  NoDup (map fst g) ->
  NoDup (map fst (fold_left (fun g r => Pandas.bucket_add (key r) (col r) g) df g)).
Proof.
  revert g. induction df as [|r df IH]; intros g Hnd; simpl; [assumption|].
  apply IH. now apply NoDup_bucket_add.
Qed.

Lemma buckets_loc (df : list A) (k : string) :
  Pandas.loc k (Pandas.buckets key col df)
  = match group_values k df with
    | [] => None
    | vs => Some vs
    end.
Proof. unfold Pandas.buckets. now rewrite fold_bucket_add_loc. Qed.

Lemma buckets_NoDup (df : list A) :
  NoDup (map fst (Pandas.buckets key col df)).
Proof. apply fold_bucket_add_NoDup. constructor. Qed.

Lemma groupby_NoDup (df : list A) :
  NoDup (map fst (Pandas.groupby key col df)).
Proof.
  unfold Pandas.groupby.
  eapply Permutation_NoDup; [|apply buckets_NoDup].
  apply Permutation_map, sort_index_perm.
Qed.

(** A group is a key of the table with the values of exactly the rows that
    carry it; no group is empty. *)
Lemma groupby_In (df : list A) (k : string) (vs : list Q) :
  In (k, vs) (Pandas.groupby key col df)
  <-> vs = group_values k df /\ vs <> [].
Proof.
  unfold Pandas.groupby.
  assert (Hperm := sort_index_perm (Pandas.buckets key col df)).
  split.
  - intros Hin. apply (Permutation_in _ (Permutation_sym Hperm)) in Hin.
    apply In_loc in Hin; [|apply buckets_NoDup].
    rewrite buckets_loc in Hin.
    destruct (group_values k df); [discriminate|].
    injection Hin as <-. split; [reflexivity | discriminate].
  - intros [-> Hne]. apply (Permutation_in _ Hperm).
    apply loc_In. rewrite buckets_loc.
    destruct (group_values k df); [congruence | reflexivity].
Qed.

Lemma groupby_keys (df : list A) (k : string) :
  In k (map fst (Pandas.groupby key col df)) <-> exists r, In r df /\ key r = k.
Proof.
  rewrite in_map_iff. split.
  - intros [[k' vs] [Heq Hin]]. simpl in Heq. subst k'.
    apply groupby_In in Hin. destruct Hin as [-> Hne].
    unfold Pandas.group_values in Hne.
    destruct (filter (fun r => String.eqb (key r) k) df) as [|r rs] eqn:Hf;
      [now elim Hne|].
    assert (Hr : In r (filter (fun r => String.eqb (key r) k) df))
      by (rewrite Hf; now left).
    apply filter_In in Hr. destruct Hr as [Hr Hk].
    exists r. split; [assumption | now apply String.eqb_eq].
  - intros [r [Hr Hk]]. exists (k, group_values k df). split; [reflexivity|].
    apply groupby_In. split; [reflexivity|].
    unfold Pandas.group_values. intros Hnil. apply map_eq_nil in Hnil.
    assert (Hin : In r (filter (fun r => String.eqb (key r) k) df)).
    { apply filter_In. split; [assumption | now apply String.eqb_eq]. }
    rewrite Hnil in Hin. exact Hin.
Qed.

End GroupBy.

(** ** Joining two Series with the same labels *)

Lemma agg_keys {V : Type} (f : list Q -> V) (g : list (string * list Q)) :
  map fst (Pandas.agg f g) = map fst g.
Proof. unfold Pandas.agg. rewrite map_map. reflexivity. Qed.

Lemma agg_In {V : Type} (f : list Q -> V) (g : list (string * list Q))
    (k : string) (v : V) :
  In (k, v) (Pandas.agg f g) <-> exists vs, In (k, vs) g /\ v = f vs.
Proof.
  unfold Pandas.agg. rewrite in_map_iff. split.
  - intros [[k' vs] [Heq Hin]]. simpl in Heq. injection Heq as -> <-. eauto.
  - intros [vs [Hin ->]]. exists (k, vs). split; [reflexivity | assumption].
Qed.

Lemma concat_columns_same_index {V W : Type}
    (a : Pandas.Series V) (b : Pandas.Series W) :
  NoDup (map fst a) ->
  (forall k, In k (map fst b) -> In k (map fst a)) ->
  Pandas.concat_columns a b
  = map (fun kv => (fst kv, (Some (snd kv), Pandas.loc (fst kv) b))) a.
Proof.
  intros Hnd Hsub. unfold Pandas.concat_columns, Pandas.union_index.
  rewrite filter_none, app_nil_r.
  - rewrite map_map. apply map_ext_in. intros [k v] Hin. simpl.
    now rewrite (In_loc k v a Hnd Hin).
  - intros k Hk. apply negb_false_iff, has_label_true. now apply Hsub.
Qed.

(* ================================================================== *)
(** * The legends of the compound drawing *)
(* ================================================================== *)

Lemma In_slice_to {A : Type} (k : Z) (l : list A) (x : A) :
  In x (Pandas.slice_to k l) -> In x l.
Proof.
  unfold Pandas.slice_to.
  assert (H : forall n, In x (firstn n l) -> In x l).
  { intros n Hin. rewrite <- (firstn_skipn n l). apply in_or_app. now left. }
  destruct (0 <=? k)%Z; apply H.
Qed.

Lemma traverse_map {A B C : Type} (f : B -> option C) (g : A -> B) (h : A -> C)
    (l : list A) :
  (forall x, In x l -> f (g x) = Some (h x)) ->
  traverse f (map g l) = Some (map h l).
Proof.
  induction l as [|x l IH]; intros H; [reflexivity|].
  cbn [map traverse]. rewrite (H x (or_introl eq_refl)), IH; [reflexivity|].
  intros y Hy. apply H. now right.
Qed.

Lemma at_label_unique (df : Prepared.DataFrame) (r : Prepared.Row) :
  NoDup (map Prepared.QSPRID df) -> In r df ->
  at_label (Prepared.QSPRID r) df = Some (Prepared.pchembl_value_Median r).
Proof.
  intros Hnd Hin. unfold at_label.
  assert (Hone : filter (fun x => String.eqb (Prepared.QSPRID x) (Prepared.QSPRID r)) df
                 = [r]).
  { induction df as [|x df IH]; [contradiction|].
    inversion Hnd as [|? ? Hnotin Hnd']; subst. cbn [filter].
    destruct Hin as [->|Hin].
    - rewrite String.eqb_refl. f_equal. apply filter_none.
      intros y Hy. apply String.eqb_neq. intros Heq. apply Hnotin.
      rewrite <- Heq. now apply in_map.
    - destruct (String.eqb_spec (Prepared.QSPRID x) (Prepared.QSPRID r)) as [Heq|_].
      + exfalso. apply Hnotin. rewrite Heq. now apply in_map.
      + now apply IH. }
  now rewrite Hone.
Qed.

(** X6.  With index labels that are pairwise distinct, as the dataset
    generates them, the label lookups of the legends all succeed: the cell
    shows one value per drawn compound, the value of that compound, whatever
    the limit. *)
Lemma compound_legends_ok (num : Z) (df : Prepared.DataFrame) :
  NoDup (map Prepared.QSPRID df) ->
  compound_legends num df
  = Some (map Prepared.pchembl_value_Median (top_compounds num df)).
Proof.
  intros Hnd. unfold compound_legends. apply traverse_map.
  intros r Hr. apply at_label_unique.
  - eapply Permutation_NoDup; [|exact Hnd].
    apply Permutation_map, sort_values_desc_perm.
  - now apply In_slice_to in Hr.
Qed.

(* ================================================================== *)
(** * Further properties of the compound drawing *)
(* ================================================================== *)

Lemma StronglySorted_app_l {A : Type} (R : A -> A -> Prop) (l1 l2 : list A) :
  StronglySorted R (l1 ++ l2) -> StronglySorted R l1.
Proof.
  induction l1 as [|x l1 IH]; simpl; intros H; [constructor|].
  inversion H as [|? ? Hs Hall]; subst. constructor; [now apply IH|].
  apply Forall_app in Hall. tauto.
Qed.

Lemma StronglySorted_app_between {A : Type} (R : A -> A -> Prop) (l1 l2 : list A) :
  StronglySorted R (l1 ++ l2) ->
  forall x y, In x l1 -> In y l2 -> R x y.
Proof.
  induction l1 as [|z l1 IH]; simpl; intros H x y Hx Hy; [contradiction|].
  inversion H as [|? ? Hs Hall]; subst. destruct Hx as [->|Hx].
  - rewrite Forall_forall in Hall. apply Hall, in_or_app. now right.
  - now apply (IH Hs).
Qed.

Lemma filter_perm {A : Type} (p : A -> bool) (l l' : list A) :
  Permutation l l' -> Permutation (filter p l) (filter p l').
Proof.
  induction 1 as [|x l l' H IH|x y l|l l' l'' H1 IH1 H2 IH2]; simpl.
  - constructor.
  - destruct (p x); [now constructor | assumption].
  - destruct (p x), (p y); try apply Permutation_refl. apply perm_swap.
  - now apply perm_trans with (filter p l').
Qed.

Lemma traverse_None {A B : Type} (f : A -> option B) (l : list A) (x : A) :
  In x l -> f x = None -> traverse f l = None.
Proof.
  induction l as [|y l IH]; simpl; intros Hin Hx; [contradiction|].
  destruct Hin as [->|Hin].
  - now rewrite Hx.
  - destruct (f y); [|reflexivity]. now rewrite (IH Hin Hx).
Qed.

(** X5.  The drawn compounds are the ones with the largest target values:
    together with the rest of the sorted frame they are the records of the
    dataset, they are in descending order of the value, and no record left
    out has a larger value than a record drawn. *)
Theorem top_compounds_largest :
  forall (num : nat) (df : Prepared.DataFrame),
    Permutation (top_compounds (Z.of_nat num) df ++ skipn num (dataset_sorted df)) df
    /\ StronglySorted (Pandas.key_ge Prepared.pchembl_value_Median)
         (top_compounds (Z.of_nat num) df)
    /\ (forall r r',
          In r (top_compounds (Z.of_nat num) df) ->
          In r' (skipn num (dataset_sorted df)) ->
          (Prepared.pchembl_value_Median r' <= Prepared.pchembl_value_Median r)%Q).
Proof.
  intros num df. unfold top_compounds. rewrite slice_to_prefix.
  assert (Hs : StronglySorted (Pandas.key_ge Prepared.pchembl_value_Median)
                 (firstn num (dataset_sorted df) ++ skipn num (dataset_sorted df))).
  { rewrite firstn_skipn. apply sort_values_desc_sorted. }
  split; [|split].
  - rewrite firstn_skipn. apply Permutation_sym, sort_values_desc_perm.
  - exact (StronglySorted_app_l _ _ _ Hs).
  - intros r r' Hr Hr'. exact (StronglySorted_app_between _ _ _ Hs r r' Hr Hr').
Qed.

Lemma top_compounds_largest_witness :
  (Prepared.pchembl_value_Median
     (Prepared.mkRow "P21802_0" "c1ccccc1O" (6 # 1) "c1ccccc1")
   <= Prepared.pchembl_value_Median
        (Prepared.mkRow "P21802_4" "C1CC1O" (9 # 1) "C1CC1"))%Q.
Proof.
  apply (proj2 (proj2 (top_compounds_largest 2 example_dataset))).
  - vm_compute. left. reflexivity.
  - vm_compute. right. left. reflexivity.
Defined.

Lemma compound_legends_ok_witness :
  compound_legends 3 example_dataset
  = Some (map Prepared.pchembl_value_Median (top_compounds 3 example_dataset)).
Proof.
  apply (compound_legends_ok 3 example_dataset).
  repeat (constructor; [simpl; intuition discriminate|]). constructor.
Defined.

(** X7.  When a drawn compound carries an index label that at least two
    records of the dataset carry, the lookup by label does not give a number
    and the legends of the drawing fail. *)
Theorem compound_legends_duplicate_label :
  forall (num : Z) (df : Prepared.DataFrame) (r : Prepared.Row),
    In r (top_compounds num df) ->
    2 <= List.length
           (filter (fun x => String.eqb (Prepared.QSPRID x) (Prepared.QSPRID r)) df) ->
    compound_legends num df = None.
Proof.
  intros num df r Hr Hdup. unfold compound_legends.
  apply traverse_None with (x := Prepared.QSPRID r); [now apply in_map|].
  unfold at_label.
  assert (Hlen : List.length
                   (filter (fun x => String.eqb (Prepared.QSPRID x) (Prepared.QSPRID r))
                      (dataset_sorted df))
                 = List.length
                     (filter (fun x => String.eqb (Prepared.QSPRID x) (Prepared.QSPRID r))
                        df)).
  { symmetry. apply Permutation_length, filter_perm, sort_values_desc_perm. }
  destruct (filter (fun x => String.eqb (Prepared.QSPRID x) (Prepared.QSPRID r))
              (dataset_sorted df)) as [|a [|b rest]]; simpl in Hlen; try reflexivity.
  lia.
Qed.

Lemma compound_legends_duplicate_label_witness :
  compound_legends 2 duplicate_label_dataset = None.
Proof.
  apply (compound_legends_duplicate_label 2 duplicate_label_dataset
           (Prepared.mkRow "P21802_0" "c1ccncc1C" (15 # 2) "c1ccncc1")).
  - vm_compute. right. left. reflexivity.
  - vm_compute. lia.
Defined.

(* ================================================================== *)
(** * Properties of the scaffold cell *)
(* ================================================================== *)

Section ScaffoldCell.

Variable mean : list Q -> Q.

Lemma scaffold_means_In (df : Prepared.DataFrame) (k : string) (m : Q) :
  In (k, m) (scaffold_means mean df)
  <-> m = mean (targets (sharing k df)) /\ sharing k df <> [].
Proof.
  unfold scaffold_means. split.
  - intros Hin.
    apply (Permutation_in _ (Permutation_sym (sort_values_desc_perm snd _))) in Hin.
    apply agg_In in Hin. destruct Hin as [vs [Hin ->]].
    apply groupby_In in Hin. destruct Hin as [-> Hne].
    split; [reflexivity|]. intros Hnil. apply Hne.
    unfold Pandas.group_values. unfold sharing in Hnil. now rewrite Hnil.
  - intros [-> Hne]. apply (Permutation_in _ (sort_values_desc_perm snd _)).
    apply agg_In. exists (targets (sharing k df)). split; [|reflexivity].
    apply groupby_In. split; [reflexivity|].
    intros Hnil. apply map_eq_nil in Hnil. now apply Hne.
Qed.

Lemma scaffold_means_keys (df : Prepared.DataFrame) :
  Permutation
    (map fst (Pandas.groupby Prepared.Scaffold_Murcko Prepared.pchembl_value_Median df))
    (map fst (scaffold_means mean df)).
Proof.
  unfold scaffold_means.
  rewrite <- (agg_keys mean) at 1.
  apply Permutation_map, sort_values_desc_perm.
Qed.

Lemma scaffold_means_NoDup (df : Prepared.DataFrame) :
  NoDup (map fst (scaffold_means mean df)).
Proof.
  eapply Permutation_NoDup; [apply scaffold_means_keys | apply groupby_NoDup].
Qed.

(** The frame of the cell, row by row: the sorted means, each with the mean
    and the number of the records that share the scaffold. *)
Lemma scaffolds_table_rows (df : Prepared.DataFrame) :
  scaffolds_table mean df
  = map (fun kv => mkScaffoldRow (fst kv) (Some (snd kv))
                     (Some (List.length (sharing (fst kv) df))))
        (scaffold_means mean df).
Proof.
  unfold scaffolds_table. fold (scaffold_means mean df).
  rewrite concat_columns_same_index.
  - rewrite map_map. apply map_ext_in. intros [k m] Hin. simpl. f_equal.
    apply scaffold_means_In in Hin. destruct Hin as [_ Hne].
    apply In_loc.
    + rewrite agg_keys. apply groupby_NoDup.
    + apply agg_In. exists (targets (sharing k df)). split.
      * apply groupby_In. split; [reflexivity|].
        intros Hnil. apply map_eq_nil in Hnil. now apply Hne.
      * unfold targets. now rewrite length_map.
  - apply scaffold_means_NoDup.
  - intros k Hk. rewrite agg_keys in Hk.
    now apply (Permutation_in _ (scaffold_means_keys df)).
Qed.

Lemma scaffolds_table_In (df : Prepared.DataFrame) (row : ScaffoldRow) :
  In row (scaffolds_table mean df)
  <-> row = mkScaffoldRow (scaffold row)
              (Some (mean (targets (sharing (scaffold row) df))))
              (Some (List.length (sharing (scaffold row) df)))
      /\ sharing (scaffold row) df <> [].
Proof.
  rewrite scaffolds_table_rows, in_map_iff. split.
  - intros [[k m] [<- Hin]]. simpl.
    apply scaffold_means_In in Hin. destruct Hin as [-> Hne]. now split.
  - intros [Heq Hne].
    exists (scaffold row, mean (targets (sharing (scaffold row) df))).
    split; [now rewrite Heq at 4 |].
    apply scaffold_means_In. now split.
Qed.

Lemma scaffolds_table_index (df : Prepared.DataFrame) :
  map scaffold (scaffolds_table mean df) = map fst (scaffold_means mean df).
Proof. rewrite scaffolds_table_rows, map_map. reflexivity. Qed.

Lemma sharing_nonempty (df : Prepared.DataFrame) (s : string) :
  sharing s df <> [] <-> exists r, In r df /\ Prepared.Scaffold_Murcko r = s.
Proof.
  unfold sharing. split.
  - intros Hne.
    destruct (filter (fun r => String.eqb (Prepared.Scaffold_Murcko r) s) df)
      as [|r rs] eqn:Hf; [now elim Hne|].
    assert (Hr : In r (filter (fun r => String.eqb (Prepared.Scaffold_Murcko r) s) df))
      by (rewrite Hf; now left).
    apply filter_In in Hr. exists r. now rewrite <- String.eqb_eq.
  - intros [r [Hr Hs]] Hnil.
    assert (Hin : In r (filter (fun r => String.eqb (Prepared.Scaffold_Murcko r) s) df)).
    { apply filter_In. now rewrite String.eqb_eq. }
    now rewrite Hnil in Hin.
Qed.

Lemma StronglySorted_map {A B : Type} (R : B -> B -> Prop) (f : A -> B) (l : list A) :
  StronglySorted (fun x y => R (f x) (f y)) l -> StronglySorted R (map f l).
Proof.
  induction 1 as [|x l Hs IH Hall]; simpl; constructor; [assumption|].
  apply Forall_map. exact Hall.
Qed.

Lemma scaffolds_table_sorted (df : Prepared.DataFrame) :
  StronglySorted mean_ge (scaffolds_table mean df).
Proof.
  rewrite scaffolds_table_rows. apply StronglySorted_map.
  unfold scaffold_means, mean_ge. simpl.
  exact (sort_values_desc_sorted snd _).
Qed.


Lemma drop_small_In (min_compounds : Z) (table : list ScaffoldRow) (row : ScaffoldRow) :
  In row (drop_small min_compounds table)
  <-> In row table
      /\ exists c, Count row = Some c /\ (min_compounds < Z.of_nat c)%Z.
Proof.
  unfold drop_small, Pandas.getitem_mask.
  rewrite filter_In. unfold count_gt. split.
  - intros [Hin Hgt]. split; [assumption|].
    destruct (Count row) as [c|]; [|discriminate].
    exists c. split; [reflexivity | now apply Z.ltb_lt].
  - intros [Hin [c [-> Hgt]]]. split; [assumption | now apply Z.ltb_lt].
Qed.

Lemma scaffolds_row_survives (min_compounds : Z) (df : Prepared.DataFrame)
    (row : ScaffoldRow) :
  In row (scaffolds_table mean df) ->
  (In row (scaffolds mean min_compounds df)
   <-> (min_compounds < compound_count (scaffold row) df)%Z).
Proof.
  intros Hin. unfold scaffolds. rewrite drop_small_In.
  pose proof (proj1 (scaffolds_table_In df row) Hin) as [Heq _].
  assert (Hc : Count row = Some (List.length (sharing (scaffold row) df)))
    by (destruct row; simpl in *; now injection Heq as -> ->).
  unfold compound_count. split.
  - intros [_ [c [Hc' Hgt]]]. rewrite Hc in Hc'. now injection Hc' as <-.
  - intros Hgt. split; [assumption|]. eauto.
Qed.

(** A scaffold with exactly [MIN_COMPOUNDS] compounds is dropped. *)
Lemma scaffold_at_threshold_dropped :
  forall (df : Prepared.DataFrame) (row : ScaffoldRow),
    In row (scaffolds_table mean df) ->
    compound_count (scaffold row) df = MIN_COMPOUNDS ->
    ~ In row (scaffolds mean MIN_COMPOUNDS df).
Proof.
  intros df row Hin Hc. rewrite (scaffolds_row_survives _ df row Hin). lia.
Qed.

(** C3.  For every scaffold frame and minimum-count threshold, the count
    filter keeps exactly the rows whose count exceeds the threshold.  On the
    frame of a dataset: a row survives if and only if the compound count of
    its scaffold exceeds the threshold, it is removed if and only if that
    count is less than or equal to the threshold, and a scaffold is in the
    filtered frame if and only if it occurs in the dataset and its count
    exceeds the threshold. *)
Theorem min_count_filter :
  forall (min_compounds : Z),
    (forall (table : list ScaffoldRow) (row : ScaffoldRow),
        In row (drop_small min_compounds table)
        <-> In row table
            /\ exists c, Count row = Some c /\ (min_compounds < Z.of_nat c)%Z)
    /\ (forall (df : Prepared.DataFrame) (row : ScaffoldRow),
          In row (scaffolds_table mean df) ->
          (In row (scaffolds mean min_compounds df)
           <-> (min_compounds < compound_count (scaffold row) df)%Z)
          /\ (~ In row (scaffolds mean min_compounds df)
              <-> (compound_count (scaffold row) df <= min_compounds)%Z))
    /\ (forall (df : Prepared.DataFrame) (s : string),
          In s (map scaffold (scaffolds mean min_compounds df))
          <-> (exists r, In r df /\ Prepared.Scaffold_Murcko r = s)
              /\ (min_compounds < compound_count s df)%Z).
Proof.
  intros min_compounds.
  split; [intros table row; apply drop_small_In|]. split.
  - intros df row Hin. split; [now apply scaffolds_row_survives|].
    rewrite (scaffolds_row_survives _ df row Hin). split; lia.
  - intros df s. rewrite in_map_iff. split.
    + intros [row [<- Hin]].
      assert (Hin' : In row (scaffolds_table mean df)).
      { unfold scaffolds in Hin. now apply drop_small_In in Hin. }
      split; [|now apply scaffolds_row_survives].
      apply sharing_nonempty. now apply scaffolds_table_In in Hin'.
    + intros [Hex Hgt]. apply sharing_nonempty in Hex.
      set (row := mkScaffoldRow s (Some (mean (targets (sharing s df))))
                    (Some (List.length (sharing s df)))).
      assert (Hin : In row (scaffolds_table mean df))
        by (apply scaffolds_table_In; now split).
      exists row. split; [reflexivity|]. now apply scaffolds_row_survives.
Qed.

(** ** The filtered frame *)

Lemma StronglySorted_filter {A : Type} (R : A -> A -> Prop) (p : A -> bool) (l : list A) :
  StronglySorted R l -> StronglySorted R (filter p l).
Proof.
  induction 1 as [|x l Hs IH Hall]; simpl; [constructor|].
  destruct (p x); [|assumption]. constructor; [assumption|].
  rewrite Forall_forall in *. intros y Hy. apply Hall.
  apply filter_In in Hy. tauto.
Qed.

(** Distinct labels stay distinct in a filtered frame. *)
Lemma NoDup_map_filter {Row : Type} (label : Row -> string) (keep : Row -> bool)
    (rows : list Row) (Hnd : NoDup (map label rows)) :
  NoDup (map label (filter keep rows)).
Proof.
  revert Hnd. induction rows as [|x rows IH]; simpl; intros H; [constructor|].
  inversion H as [|? ? Hnotin Hnd]; subst.
  destruct (keep x); simpl; [|now apply IH].
  constructor; [|now apply IH].
  intros Hin. apply Hnotin. apply in_map_iff in Hin.
  destruct Hin as [y [Hy Hin]]. apply filter_In in Hin.
  rewrite <- Hy. apply in_map. tauto.
Qed.

Lemma scaffolds_table_NoDup (df : Prepared.DataFrame) :
  NoDup (map scaffold (scaffolds_table mean df)).
Proof. rewrite scaffolds_table_index. apply scaffold_means_NoDup. Qed.

Lemma scaffolds_NoDup (min_compounds : Z) (df : Prepared.DataFrame) :
  NoDup (map scaffold (scaffolds mean min_compounds df)).
Proof. apply NoDup_map_filter, scaffolds_table_NoDup. Qed.

Lemma scaffolds_sorted (min_compounds : Z) (df : Prepared.DataFrame) :
  StronglySorted mean_ge (scaffolds mean min_compounds df).
Proof. apply StronglySorted_filter, scaffolds_table_sorted. Qed.

(** X8.  The count filter keeps the order of the frame: the filtered frame
    is still in descending order of the mean, each surviving scaffold has one
    row, and filtering it again with the same threshold changes nothing. *)
Theorem scaffolds_filtered_sorted :
  forall (min_compounds : Z) (df : Prepared.DataFrame),
    StronglySorted mean_ge (scaffolds mean min_compounds df)
    /\ NoDup (map scaffold (scaffolds mean min_compounds df))
    /\ drop_small min_compounds (scaffolds mean min_compounds df)
       = scaffolds mean min_compounds df.
Proof.
  intros min_compounds df. split; [apply scaffolds_sorted|].
  split; [apply scaffolds_NoDup|].
  unfold scaffolds, drop_small. apply getitem_mask_idempotent.
Qed.

(** ** The counts add up *)

Lemma sizes_bucket_add (k : string) (v : Q) (g : list (string * list Q)) :
  list_sum (sizes (Pandas.bucket_add k v g)) = S (list_sum (sizes g)).
Proof.
  unfold sizes.
  induction g as [|[k' vs] g IH]; [reflexivity|].
  cbn [Pandas.bucket_add]. destruct (String.eqb k k').
  - cbn [map list_sum fold_right snd]. rewrite length_app. simpl. lia.
  - cbn [map snd]. change (list_sum (?x :: ?l)) with (x + list_sum l).
    rewrite IH. lia.
Qed.

Lemma sizes_buckets {A : Type} (key : A -> string) (col : A -> Q) (df : list A) :
  list_sum (sizes (Pandas.buckets key col df)) = List.length df.
Proof.
  unfold Pandas.buckets.
  assert (H : forall g,
             list_sum (sizes (fold_left
                                (fun g r => Pandas.bucket_add (key r) (col r) g) df g))
             = list_sum (sizes g) + List.length df).
  { induction df as [|r df IH]; intros g; simpl; [lia|].
    rewrite IH, sizes_bucket_add. lia. }
  now rewrite H.
Qed.

Lemma sizes_groupby {A : Type} (key : A -> string) (col : A -> Q) (df : list A) :
  list_sum (sizes (Pandas.groupby key col df)) = List.length df.
Proof.
  rewrite <- (sizes_buckets key col df). unfold Pandas.groupby, sizes.
  apply Permutation_list_sum, Permutation_map, Permutation_sym, sort_index_perm.
Qed.

Lemma count_total_rows (df : Prepared.DataFrame) :
  count_total (scaffolds_table mean df)
  = list_sum (map (fun k => List.length (sharing k df)) (map fst (scaffold_means mean df))).
Proof.
  rewrite scaffolds_table_rows.
  induction (scaffold_means mean df) as [|kv l IH]; simpl; [reflexivity|].
  now rewrite IH.
Qed.

(** X9.  The counts of the scaffold frame add up to the number of records of
    the dataset: every record is counted for exactly one scaffold. *)
Theorem scaffold_counts_total :
  forall (df : Prepared.DataFrame),
    count_total (scaffolds_table mean df) = List.length df.
Proof.
  intros df. rewrite count_total_rows.
  rewrite <- (sizes_groupby Prepared.Scaffold_Murcko Prepared.pchembl_value_Median df).
  rewrite <- (Permutation_list_sum
                (Permutation_map (fun k => List.length (sharing k df))
                   (scaffold_means_keys df))).
  unfold sizes. rewrite map_map. f_equal. apply map_ext_in.
  intros [k vs] Hin. simpl. apply groupby_In in Hin. destruct Hin as [-> _].
  unfold Pandas.group_values, sharing. now rewrite length_map.
Qed.

(** ** The threshold *)

Lemma filter_all {A : Type} (p : A -> bool) (l : list A) :
  (forall x, In x l -> p x = true) -> filter p l = l.
Proof.
  induction l as [|x l IH]; simpl; intros H; [reflexivity|].
  rewrite (H x (or_introl eq_refl)). f_equal. apply IH.
  intros y Hy. apply H. now right.
Qed.

Lemma scaffolds_table_count (df : Prepared.DataFrame) (row : ScaffoldRow) :
  In row (scaffolds_table mean df) ->
  exists c, Count row = Some c /\ 1 <= c <= List.length df.
Proof.
  intros Hin. apply scaffolds_table_In in Hin. destruct Hin as [Heq Hne].
  exists (List.length (sharing (scaffold row) df)). split.
  - destruct row; simpl in *. now injection Heq as -> ->.
  - split.
    + destruct (sharing (scaffold row) df); [now elim Hne | simpl; lia].
    + apply filter_length_le.
Qed.

(** X10.  The threshold at its ends and in steps: a threshold of zero or
    less drops no scaffold; a threshold of at least the number of records
    drops every scaffold; and raising the threshold on a frame that was
    already filtered gives the frame of the higher threshold. *)
Theorem min_compounds_thresholds :
  forall (df : Prepared.DataFrame) (low high : Z),
    ((low <= 0)%Z -> scaffolds mean low df = scaffolds_table mean df)
    /\ ((Z.of_nat (List.length df) <= high)%Z -> scaffolds mean high df = [])
    /\ ((low <= high)%Z -> drop_small high (scaffolds mean low df) = scaffolds mean high df).
Proof.
  intros df low high. split; [|split].
  - intros Hlow. unfold scaffolds, drop_small, Pandas.getitem_mask.
    apply filter_all. intros row Hin.
    destruct (scaffolds_table_count df row Hin) as [c [Hc Hb]].
    unfold count_gt. rewrite Hc. apply Z.ltb_lt. lia.
  - intros Hhigh. unfold scaffolds, drop_small, Pandas.getitem_mask.
    apply filter_none. intros row Hin.
    destruct (scaffolds_table_count df row Hin) as [c [Hc Hb]].
    unfold count_gt. rewrite Hc. apply Z.ltb_ge. lia.
  - intros Hle. unfold scaffolds, drop_small.
    rewrite getitem_mask_compose. unfold Pandas.getitem_mask.
    apply filter_ext. intros row. unfold count_gt.
    destruct (Count row) as [c|]; [|reflexivity].
    destruct (Z.ltb_spec high (Z.of_nat c)) as [H|H].
    + rewrite andb_true_r. apply Z.ltb_lt. lia.
    + apply andb_false_r.
Qed.

(** ** The scaffold drawing and the cell that follows it *)

Lemma slice_to_firstn {A : Type} (k : Z) (l : list A) :
  exists m, Pandas.slice_to k l = firstn m l.
Proof. unfold Pandas.slice_to. destruct (0 <=? k)%Z; eauto. Qed.

Lemma slice_to_map {A B : Type} (f : A -> B) (k : Z) (l : list A) :
  Pandas.slice_to k (map f l) = map f (Pandas.slice_to k l).
Proof.
  unfold Pandas.slice_to. rewrite length_map.
  destruct (0 <=? k)%Z; apply firstn_map.
Qed.

Lemma enumerate_from_map {A B : Type} (f : A -> B) (start : nat) (l : list A) :
  enumerate_from start (map f l)
  = map (fun item => (fst item, f (snd item))) (enumerate_from start l).
Proof.
  revert start. induction l as [|x l IH]; intros start; simpl; [reflexivity|].
  now rewrite IH.
Qed.

Lemma In_enumerate_from {A : Type} (start i : nat) (x : A) (l : list A) :
  In (i, x) (enumerate_from start l)
  <-> start <= i /\ nth_error l (i - start) = Some x.
Proof.
  revert start. induction l as [|y l IH]; intros start; simpl.
  - split; [contradiction|]. intros [_ H]. destruct (i - start); discriminate.
  - rewrite IH. split.
    + intros [Heq|[Hle Hnth]].
      * injection Heq as <- <-. rewrite Nat.sub_diag. split; [lia | reflexivity].
      * split; [lia|]. replace (i - start) with (S (i - S start)) by lia. exact Hnth.
    + intros [Hle Hnth]. destruct (i - start) as [|j] eqn:Hj.
      * left. injection Hnth as ->. f_equal. lia.
      * right. split; [lia|]. replace (i - S start) with j by lia. exact Hnth.
Qed.

Lemma nth_error_slice_to {A : Type} (k : Z) (l : list A) (i : nat) (x : A) :
  nth_error (Pandas.slice_to k l) i = Some x -> nth_error l i = Some x.
Proof.
  destruct (slice_to_firstn k l) as [m ->]. rewrite nth_error_firstn.
  destruct (Nat.ltb i m); [tauto | discriminate].
Qed.

Lemma column_at_unique {V : Type} (column : ScaffoldRow -> V)
    (frame : list ScaffoldRow) (row : ScaffoldRow) :
  NoDup (map scaffold frame) -> In row frame ->
  column_at column (scaffold row) frame = Some (column row).
Proof.
  intros Hnd Hin. unfold column_at.
  assert (Hone : filter (fun x => String.eqb (scaffold x) (scaffold row)) frame = [row]).
  { induction frame as [|x frame IH]; [contradiction|].
    inversion Hnd as [|? ? Hnotin Hnd']; subst. cbn [filter].
    destruct Hin as [->|Hin].
    - rewrite String.eqb_refl. f_equal. apply filter_none.
      intros y Hy. apply String.eqb_neq. intros Heq. apply Hnotin.
      rewrite <- Heq. now apply in_map.
    - destruct (String.eqb_spec (scaffold x) (scaffold row)) as [Heq|_].
      + exfalso. apply Hnotin. rewrite Heq. now apply in_map.
      + now apply IH. }
  now rewrite Hone.
Qed.

(** X11.  The legends of the scaffold drawing never fail, whatever the
    dataset, the threshold and the limit: the scaffold labels of the frame
    are pairwise distinct, so each lookup gives one cell.  The legends are
    the position, mean and count of the drawn rows, in their order, with
    positions counting from 0. *)
Theorem scaffold_legends_ok :
  forall (num min_compounds : Z) (df : Prepared.DataFrame),
    scaffold_legends mean num min_compounds df
    = Some (map (fun item => (fst item,
                              Average_pchembl_value (snd item),
                              Count (snd item)))
              (enumerate (Pandas.slice_to num (scaffolds mean min_compounds df)))).
Proof.
  intros num min_compounds df. unfold scaffold_legends, enumerate.
  rewrite slice_to_map, enumerate_from_map.
  apply traverse_map with
    (h := fun item => (fst item, Average_pchembl_value (snd item), Count (snd item))).
  intros [i row] Hin. cbn [fst snd].
  assert (Hrow : In row (scaffolds mean min_compounds df)).
  { apply In_enumerate_from in Hin. destruct Hin as [_ Hnth].
    apply nth_error_slice_to in Hnth. now apply nth_error_In in Hnth. }
  rewrite !column_at_unique by (try apply scaffolds_NoDup; exact Hrow).
  reflexivity.
Qed.

(** X12.  The position shown under a drawn scaffold selects that scaffold in
    the next cell: for every pair of [enumerate] over the drawn scaffolds,
    using the position as [SCAFFOLD_INDEX] gives the compounds of that
    scaffold. *)
Theorem scaffold_index_round_trip :
  forall (num min_compounds : Z) (df : Prepared.DataFrame) (i : nat) (s : string),
    In (i, s) (enumerate (drawn_scaffolds mean num min_compounds df)) ->
    getitem_int (Z.of_nat i) (map scaffold (scaffolds mean min_compounds df)) = Some s
    /\ scaffold_compounds mean (Z.of_nat i) min_compounds df = Some (scaffold_df s df).
Proof.
  intros num min_compounds df i s Hin.
  apply In_enumerate_from in Hin. destruct Hin as [_ Hnth].
  rewrite Nat.sub_0_r in Hnth. unfold drawn_scaffolds in Hnth.
  apply nth_error_slice_to in Hnth.
  assert (Hget : getitem_int (Z.of_nat i) (map scaffold (scaffolds mean min_compounds df))
                 = Some s).
  { unfold getitem_int. destruct (Z.leb_spec 0 (Z.of_nat i)); [|lia].
    now rewrite Nat2Z.id. }
  split; [exact Hget|]. unfold scaffold_compounds. now rewrite Hget.
Qed.

(** X14.  The selection of the scaffold raises an IndexError exactly when
    the index is outside the filtered frame: at or beyond the number of
    surviving scaffolds, or below its negation.  With no surviving scaffold
    every index fails. *)
Theorem scaffold_index_out_of_range :
  forall (index min_compounds : Z) (df : Prepared.DataFrame),
    scaffold_compounds mean index min_compounds df = None
    <-> (Z.of_nat (List.length (scaffolds mean min_compounds df)) <= index
         \/ index < - Z.of_nat (List.length (scaffolds mean min_compounds df)))%Z.
Proof.
  intros index min_compounds df. unfold scaffold_compounds.
  set (labels := map scaffold (scaffolds mean min_compounds df)).
  assert (Hlen : List.length labels = List.length (scaffolds mean min_compounds df))
    by apply length_map.
  rewrite <- Hlen.
  assert (Hget : getitem_int index labels = None
                 <-> (Z.of_nat (List.length labels) <= index
                      \/ index < - Z.of_nat (List.length labels))%Z).
  { unfold getitem_int.
    destruct (Z.leb_spec 0 index) as [Hpos|Hneg].
    - rewrite nth_error_None. lia.
    - destruct (Z.leb_spec (- Z.of_nat (List.length labels)) index) as [Hin|Hout].
      + rewrite nth_error_None. lia.
      + split; [lia | reflexivity]. }
  rewrite <- Hget. destruct (getitem_int index labels); split; congruence.
Qed.

Lemma scaffold_df_perm (s : string) (df : Prepared.DataFrame) :
  Permutation (scaffold_df s df) (sharing s df).
Proof. unfold scaffold_df. apply Permutation_sym, sort_values_desc_perm. Qed.

(** X13.  For an index inside the filtered frame the cell succeeds, and the
    compounds it shows belong to the row the index selects: they are the
    records of the dataset that share the row's scaffold, their number is the
    count of the row and exceeds the threshold, they are in descending order
    of the target value, and the mean the row reports is the mean [.mean()]
    computes from the values of those records in table order. *)
Theorem scaffold_compounds_of_row :
  forall (i : nat) (min_compounds : Z) (df : Prepared.DataFrame) (row : ScaffoldRow),
    nth_error (scaffolds mean min_compounds df) i = Some row ->
    exists compounds,
      scaffold_compounds mean (Z.of_nat i) min_compounds df = Some compounds
      /\ Permutation compounds (sharing (scaffold row) df)
      /\ Count row = Some (List.length compounds)
      /\ (min_compounds < Z.of_nat (List.length compounds))%Z
      /\ StronglySorted (Pandas.key_ge Prepared.pchembl_value_Median) compounds
      /\ (forall r, In r compounds ->
            In r df /\ Prepared.Scaffold_Murcko r = scaffold row)
      /\ Average_pchembl_value row
         = Some (mean (targets (sharing (scaffold row) df))).
Proof.
  intros i min_compounds df row Hnth.
  assert (Hin : In row (scaffolds mean min_compounds df))
    by (now apply nth_error_In in Hnth).
  assert (Hin' : In row (scaffolds_table mean df)).
  { unfold scaffolds in Hin. now apply drop_small_In in Hin. }
  pose proof (proj1 (scaffolds_row_survives min_compounds df row Hin') Hin) as Hgt.
  apply scaffolds_table_In in Hin'. destruct Hin' as [Heq Hne].
  set (s := scaffold row) in *.
  assert (Hlen : List.length (scaffold_df s df) = List.length (sharing s df))
    by (apply Permutation_length, scaffold_df_perm).
  exists (scaffold_df s df).
  split; [|split; [|split; [|split; [|split; [|split]]]]].
  - unfold scaffold_compounds, getitem_int.
    destruct (Z.leb_spec 0 (Z.of_nat i)); [|lia].
    rewrite Nat2Z.id, nth_error_map, Hnth. reflexivity.
  - apply scaffold_df_perm.
  - rewrite Hlen, Heq. reflexivity.
  - rewrite Hlen. exact Hgt.
  - apply sort_values_desc_sorted.
  - intros r Hr. apply (Permutation_in _ (scaffold_df_perm s df)) in Hr.
    unfold sharing in Hr. apply filter_In in Hr.
    destruct Hr as [Hr Hs]. apply String.eqb_eq in Hs. now split.
  - rewrite Heq. reflexivity.
Qed.

(** X15.  The ends of the index: [SCAFFOLD_INDEX = 0], the value the cell
    ships with, shows the compounds of the surviving scaffold with the
    highest mean, and [SCAFFOLD_INDEX = -1] those of the surviving scaffold
    with the lowest mean. *)
Theorem scaffold_index_first_last :
  forall (min_compounds : Z) (df : Prepared.DataFrame),
    (forall row rest,
        scaffolds mean min_compounds df = row :: rest ->
        scaffold_compounds mean SCAFFOLD_INDEX min_compounds df
        = Some (scaffold_df (scaffold row) df)
        /\ forall row', In row' rest -> mean_ge row row')
    /\ (forall front row,
          scaffolds mean min_compounds df = front ++ [row] ->
          scaffold_compounds mean (-1) min_compounds df
          = Some (scaffold_df (scaffold row) df)
          /\ forall row', In row' front -> mean_ge row' row).
Proof.
  intros min_compounds df. pose proof (scaffolds_sorted min_compounds df) as Hs.
  split.
  - intros row rest Heq. rewrite Heq in Hs. split.
    + unfold scaffold_compounds. rewrite Heq. reflexivity.
    + intros row' Hin. inversion Hs as [|? ? _ Hall]; subst.
      rewrite Forall_forall in Hall. now apply Hall.
  - intros front row Heq. rewrite Heq in Hs. split.
    + unfold scaffold_compounds, getitem_int. rewrite Heq.
      rewrite map_app, length_app, length_map. cbn [map List.length].
      destruct (Z.leb_spec 0 (-1)) as [Hc|_]; [lia|].
      destruct (Z.leb_spec (- Z.of_nat (List.length front + 1)) (-1)) as [_|Hc]; [|lia].
      replace (Z.to_nat (Z.of_nat (List.length front + 1) + -1))
        with (List.length (map scaffold front)) by (rewrite length_map; lia).
      rewrite nth_error_app2 by lia. rewrite Nat.sub_diag. reflexivity.
    + intros row' Hin.
      apply (StronglySorted_app_between _ _ _ Hs row' row Hin). now left.
Qed.

(** X16.  With index labels that are pairwise distinct, the legends of the
    compounds of a scaffold are the target values of those compounds, in the
    order they are drawn, for any scaffold; for a scaffold no record has
    there is nothing to draw and the legends are empty. *)
Theorem scaffold_compound_legends_ok :
  forall (s : string) (df : Prepared.DataFrame),
    NoDup (map Prepared.QSPRID df) ->
    scaffold_compound_legends s df = Some (targets (scaffold_df s df))
    /\ ((forall r, In r df -> Prepared.Scaffold_Murcko r <> s) ->
        scaffold_df s df = [] /\ scaffold_compound_legends s df = Some []).
Proof.
  intros s df Hnd.
  assert (Hleg : scaffold_compound_legends s df = Some (targets (scaffold_df s df))).
  { unfold scaffold_compound_legends, targets. apply traverse_map.
    intros r Hr. apply at_label_unique; [|exact Hr].
    apply (Permutation_NoDup
             (Permutation_map Prepared.QSPRID
                (Permutation_sym (scaffold_df_perm s df)))).
    unfold sharing. now apply NoDup_map_filter. }
  split; [exact Hleg|]. intros Hnone.
  assert (Hempty : scaffold_df s df = []).
  { apply Permutation_nil, Permutation_sym.
    eapply perm_trans; [apply scaffold_df_perm|].
    unfold sharing. rewrite filter_none; [apply Permutation_refl|].
    intros r Hr. apply String.eqb_neq. now apply Hnone. }
  split; [exact Hempty|]. now rewrite Hleg, Hempty.
Qed.

Lemma scaffold_compound_legends_ok_witness :
  scaffold_compound_legends "c1ccccc1" example_dataset
  = Some (targets (scaffold_df "c1ccccc1" example_dataset))
  /\ scaffold_compound_legends "C1CCCC1" example_dataset = Some [].
Proof.
  assert (Hnd : NoDup (map Prepared.QSPRID example_dataset)).
  { repeat (constructor; [simpl; intuition discriminate|]). constructor. }
  split.
  - exact (proj1 (scaffold_compound_legends_ok "c1ccccc1" example_dataset Hnd)).
  - apply (proj2 (scaffold_compound_legends_ok "C1CCCC1" example_dataset Hnd)).
    intros r Hr.
    assert (H : forallb (fun r => negb (String.eqb (Prepared.Scaffold_Murcko r) "C1CCCC1"))
                  example_dataset = true) by reflexivity.
    rewrite forallb_forall in H. specialize (H r Hr).
    apply negb_true_iff in H. now apply String.eqb_neq.
Defined.

End ScaffoldCell.

(* ================================================================== *)
(** * Properties of the random split *)
(* ================================================================== *)

Section Take.

Context {A : Type}.

Lemma take_app (p q : list nat) (records : list A) :
  take (p ++ q) records = take p records ++ take q records.
Proof. unfold take. apply flat_map_app. Qed.

Lemma take_seq_from (records done : list A) :
  take (seq (List.length done) (List.length records)) (done ++ records) = records.
Proof.
  revert done. induction records as [|r records IH]; intros done; [reflexivity|].
  cbn [List.length seq]. unfold take. cbn [flat_map]. fold (@take A).
  rewrite nth_error_app2 by lia. rewrite Nat.sub_diag. cbn [nth_error app].
  f_equal.
  replace (done ++ r :: records) with ((done ++ [r]) ++ records)
    by (now rewrite <- app_assoc).
  replace (S (List.length done)) with (List.length (done ++ [r]))
    by (rewrite length_app; simpl; lia).
  apply IH.
Qed.

Lemma take_all (records : list A) :
  take (seq 0 (List.length records)) records = records.
Proof. exact (take_seq_from records []). Qed.

Lemma take_perm (p q : list nat) (records : list A) :
  Permutation p q -> Permutation (take p records) (take q records).
Proof. intros H. unfold take. now apply Permutation_flat_map. Qed.

Lemma take_length (p : list nat) (records : list A) :
  Forall (fun i => i < List.length records) p ->
  List.length (take p records) = List.length p.
Proof.
  induction 1 as [|i p Hi Hall IH]; [reflexivity|].
  unfold take in *. cbn [flat_map].
  apply nth_error_Some in Hi.
  destruct (nth_error records i); [|congruence].
  rewrite length_app, IH. reflexivity.
Qed.

End Take.

Lemma NoDup_app_disjoint {A : Type} (l1 l2 : list A) (x : A) :
  NoDup (l1 ++ l2) -> In x l1 -> ~ In x l2.
Proof.
  induction l1 as [|y l1 IH]; simpl; [tauto|].
  intros Hnd [->|Hin] Hx; inversion Hnd as [|? ? Hnotin Hnd']; subst.
  - apply Hnotin, in_or_app. now right.
  - now apply (IH Hnd' Hin).
Qed.

Lemma in_app_exclusive {A : Type} (l1 l2 : list A) (x : A) :
  NoDup (l1 ++ l2) -> In x (l1 ++ l2) ->
  (In x l1 /\ ~ In x l2) \/ (In x l2 /\ ~ In x l1).
Proof.
  intros Hnd Hin. apply in_app_or in Hin. destruct Hin as [H1|H2].
  - left. split; [assumption | now apply (NoDup_app_disjoint l1 l2)].
  - right. split; [assumption|]. intros H1.
    now apply (NoDup_app_disjoint l1 l2 x Hnd H1).
Qed.

(** A fifth of the record count, however it is rounded, is within one
    record of the fifth and no more than the record count. *)
Lemma n_test_fifth (rounding : Rounding) (n : nat) :
  5 * n_test rounding (1 # 5) n < n + 5
  /\ n < 5 * n_test rounding (1 # 5) n + 5
  /\ n_test rounding (1 # 5) n <= n.
Proof.
  unfold n_test, round_count.
  destruct rounding;
    unfold Qceiling, Qfloor, Qopp, Qplus, Qmult, inject_Z; cbn [Qnum Qden].
  - change (Z.pos (5 * 1)) with 5%Z.
    assert (H := Z.mod_pos_bound (1 * Z.of_nat n) 5 ltac:(lia)).
    assert (H' := Z.div_mod (1 * Z.of_nat n) 5 ltac:(lia)).
    lia.
  - change (Z.pos (5 * 1)) with 5%Z.
    assert (H := Z.mod_pos_bound (- (1 * Z.of_nat n)) 5 ltac:(lia)).
    assert (H' := Z.div_mod (- (1 * Z.of_nat n)) 5 ltac:(lia)).
    lia.
  - change (Z.pos (5 * 1 * 2)) with 10%Z. change (Z.pos (5 * 1)) with 5%Z.
    assert (H := Z.mod_pos_bound (1 * Z.of_nat n * 2 + 1 * 5) 10 ltac:(lia)).
    assert (H' := Z.div_mod (1 * Z.of_nat n * 2 + 1 * 5) 10 ltac:(lia)).
    lia.
Qed.

Lemma remove_at_perm {A : Type} (j : nat) (l : list A) (x : A) :
  nth_error l j = Some x -> Permutation (x :: remove_at j l) l.
Proof.
  revert j. induction l as [|y l IH]; intros j Hj; [destruct j; discriminate|].
  destruct j as [|j]; simpl in *.
  - injection Hj as ->. apply Permutation_refl.
  - eapply perm_trans; [apply perm_swap|]. apply perm_skip. now apply IH.
Qed.

Section SplitFacts.

Variable rng : nat -> nat.

(** Sampling moves positions from the pool to the sample and loses none:
    the sample and what is left are the pool. *)
Lemma sample_perm (count k : nat) (pool : list nat) :
  Permutation (fst (sample rng k pool count) ++ snd (sample rng k pool count)) pool.
Proof.
  revert k pool. induction count as [|count IH]; intros k pool; cbn [sample].
  - apply Permutation_refl.
  - destruct (nth_error pool (rng k mod List.length pool)) as [i|] eqn:Hi;
      cbn [fst snd app]; [|apply Permutation_refl].
    eapply perm_trans; [apply perm_skip, IH|]. now apply remove_at_perm.
Qed.

(** A sample no larger than the pool has the size asked for. *)
Lemma sample_length (count k : nat) (pool : list nat) :
  count <= List.length pool ->
  List.length (fst (sample rng k pool count)) = count.
Proof.
  revert k pool. induction count as [|count IH]; intros k pool Hle; cbn [sample].
  - reflexivity.
  - assert (Hj : rng k mod List.length pool < List.length pool)
      by (apply Nat.mod_upper_bound; lia).
    destruct (nth_error pool (rng k mod List.length pool)) as [i|] eqn:Hi.
    + cbn [fst List.length]. f_equal. apply IH.
      pose proof (Permutation_length (remove_at_perm _ _ _ Hi)) as Hlen.
      simpl in Hlen. lia.
    + apply nth_error_None in Hi. lia.
Qed.

Context {A : Type} (rounding : Rounding) (records : list A).

Let n := List.length records.

Lemma positions_perm :
  Permutation
    (train_positions rng rounding (1 # 5) n ++ test_positions rng rounding (1 # 5) n)
    (seq 0 n).
Proof.
  eapply perm_trans; [apply Permutation_app_comm|].
  unfold train_positions, test_positions. apply sample_perm.
Qed.

Lemma positions_NoDup :
  NoDup (train_positions rng rounding (1 # 5) n ++ test_positions rng rounding (1 # 5) n).
Proof.
  apply (Permutation_NoDup (Permutation_sym positions_perm)), seq_NoDup.
Qed.

Lemma positions_cover (i : nat) :
  i < n <->
  In i (train_positions rng rounding (1 # 5) n ++ test_positions rng rounding (1 # 5) n).
Proof.
  split.
  - intros Hi. apply (Permutation_in _ (Permutation_sym positions_perm)), in_seq. lia.
  - intros Hi. apply (Permutation_in _ positions_perm), in_seq in Hi. lia.
Qed.

Lemma split_rejoin :
  Permutation (fst (rand_split rng rounding records) ++ snd (rand_split rng rounding records))
              records.
Proof.
  unfold rand_split, randomsplit. cbn [fst snd].
  rewrite <- take_app.
  apply perm_trans with (take (seq 0 (List.length records)) records);
    [|rewrite (take_all records); apply Permutation_refl].
  apply take_perm, positions_perm.
Qed.

Lemma test_size :
  List.length (snd (rand_split rng rounding records)) = n_test rounding (1 # 5) n.
Proof.
  unfold rand_split, randomsplit. cbn [fst snd].
  rewrite take_length.
  - unfold test_positions. apply sample_length.
    rewrite length_seq. apply n_test_fifth.
  - apply Forall_forall. intros i Hi. apply positions_cover.
    apply in_or_app. now right.
Qed.

End SplitFacts.

(** C2.  With a holdout fraction of 0.2, whatever numbers the seeded
    generator yields and however the fraction of the record count is rounded,
    the training set and the test set form a disjoint partition of the
    prepared records: together they hold the records, each as often as the
    dataset does; every position of the dataset is drawn into exactly one of
    the two sets, so when the records are pairwise distinct every record is
    in exactly one set; and the size of the test set is within one record of
    a fifth of the record count. *)
Theorem random_split_partition :
  forall (A : Type) (rng : nat -> nat) (rounding : Rounding) (records : list A),
    let n := List.length records in
    let train := fst (rand_split rng rounding records) in
    let test := snd (rand_split rng rounding records) in
    let train_at := train_positions rng rounding (1 # 5) n in
    let test_at := test_positions rng rounding (1 # 5) n in
    train = take train_at records
    /\ test = take test_at records
    /\ Permutation (train ++ test) records
    /\ (forall i, i < n ->
          (In i train_at /\ ~ In i test_at) \/ (In i test_at /\ ~ In i train_at))
    /\ (NoDup records ->
        forall r, In r records ->
          (In r train /\ ~ In r test) \/ (In r test /\ ~ In r train))
    /\ List.length train + List.length test = n
    /\ 5 * List.length test < n + 5
    /\ n < 5 * List.length test + 5.
Proof.
  intros A rng rounding records n train test train_at test_at.
  assert (Hjoin : Permutation (train ++ test) records) by apply split_rejoin.
  split; [reflexivity|]. split; [reflexivity|]. split; [exact Hjoin|].
  split; [|split; [|split]].
  - intros i Hi. apply in_app_exclusive.
    + apply positions_NoDup.
    + now apply positions_cover.
  - intros Hnd r Hr. apply in_app_exclusive.
    + exact (Permutation_NoDup (Permutation_sym Hjoin) Hnd).
    + exact (Permutation_in r (Permutation_sym Hjoin) Hr).
  - rewrite <- length_app. now apply Permutation_length.
  - unfold test. rewrite test_size.
    pose proof (n_test_fifth rounding n). tauto.
Qed.

Lemma random_split_partition_witness :
  Permutation
    (fst (rand_split example_rng RoundUp example_dataset)
     ++ snd (rand_split example_rng RoundUp example_dataset))
    example_dataset
  /\ (forall r, In r example_dataset ->
        (In r (fst (rand_split example_rng RoundUp example_dataset))
         /\ ~ In r (snd (rand_split example_rng RoundUp example_dataset)))
        \/ (In r (snd (rand_split example_rng RoundUp example_dataset))
            /\ ~ In r (fst (rand_split example_rng RoundUp example_dataset))))
  /\ List.length (snd (rand_split example_rng RoundUp example_dataset)) = 1.
Proof.
  pose proof (random_split_partition Prepared.Row example_rng RoundUp example_dataset)
    as H.
  cbv zeta in H. destruct H as [_ [_ [Hjoin [_ [Hone _]]]]].
  split; [exact Hjoin|]. split; [|reflexivity].
  apply Hone.
  repeat (constructor; [simpl; intuition discriminate|]). constructor.
Defined.

Example rand_split_example :
  rand_split example_rng RoundUp (seq 0 11)
  = ([1; 2; 4; 5; 6; 7; 8; 9], [3; 0; 10])
  /\ rand_split example_rng RoundDown (seq 0 11)
     = ([1; 2; 4; 5; 6; 7; 8; 9; 10], [3; 0]).
Proof. split; reflexivity. Qed.

(* ================================================================== *)
(** * Properties of the prediction cell *)
(* ================================================================== *)

Section PredictionFacts.

Variable Mol : Type.
Variable MolFromSmiles : string -> option Mol.
Variable Model : Type.
Variable feature_calculator : Mol -> list bool.
Variable predict : Model -> list bool -> Q.
Variable model : Model.

Let predicted : string -> option Q :=
  prediction_of Mol MolFromSmiles Model feature_calculator predict model.

Lemma predictMols_rows (mols : list string) :
  (forall smi, In smi mols -> MolFromSmiles smi <> None) ->
  exists values,
    predictMols Mol MolFromSmiles Model feature_calculator predict model mols
    = Some (map (fun p => [p]) values)
    /\ Forall2 (fun smi p => predicted smi = Some p) mols values.
Proof.
  induction mols as [|smi mols IH]; intros Hparse.
  - exists []. split; [reflexivity | constructor].
  - destruct IH as [values [Hrun Hall]].
    { intros s Hs. apply Hparse. now right. }
    assert (Hsmi := Hparse smi (or_introl eq_refl)).
    cbn [predictMols]. rewrite Hrun.
    destruct (MolFromSmiles smi) as [m|] eqn:Hm; [|congruence].
    exists (predict model (feature_calculator m) :: values).
    split; [reflexivity|]. constructor; [|exact Hall].
    unfold predicted, prediction_of. now rewrite Hm.
Qed.

Lemma prediction_legends_rows (values : list Q) :
  prediction_legends (map (fun p => [p]) values) = Some values.
Proof.
  unfold prediction_legends.
  induction values as [|p values IH]; [reflexivity|].
  simpl in *. now rewrite IH.
Qed.

Lemma Forall2_nth_error {X Y : Type} (R : X -> Y -> Prop) (xs : list X) (ys : list Y) :
  Forall2 R xs ys ->
  forall i x, nth_error xs i = Some x ->
    exists y, nth_error ys i = Some y /\ R x y.
Proof.
  induction 1 as [|x0 y0 xs ys Hxy Hall IH]; intros i x Hi.
  - destruct i; discriminate.
  - destruct i as [|i]; simpl in *.
    + injection Hi as <-. eauto.
    + now apply IH.
Qed.

End PredictionFacts.

(** C1.  For every fitted model, predicting on an ordered list of n
    parseable SMILES strings returns exactly n predictions, each a row with
    one scalar, and the prediction at position i is the one the model gives
    the string at position i; the legends the cell draws are these scalars
    in the same order.  In particular, for the three strings of
    [list_of_smiles] the result has exactly three rows, in the order of the
    strings. *)
Theorem predictMols_aligned :
  forall (Mol : Type) (MolFromSmiles : string -> option Mol) (Model : Type)
         (feature_calculator : Mol -> list bool)
         (predict : Model -> list bool -> Q)
         (model : Model) (mols : list string),
    (forall smi, In smi mols -> MolFromSmiles smi <> None) ->
    exists predictions legends,
      predictMols Mol MolFromSmiles Model feature_calculator predict model mols
      = Some predictions
      /\ prediction_legends predictions = Some legends
      /\ List.length predictions = List.length mols
      /\ List.length legends = List.length mols
      /\ (forall i smi,
            nth_error mols i = Some smi ->
            exists p,
              prediction_of Mol MolFromSmiles Model feature_calculator predict
                model smi = Some p
              /\ nth_error predictions i = Some [p]
              /\ nth_error legends i = Some p)
      /\ (mols = list_of_smiles ->
          exists p1 p2 p3,
            predictions = [[p1]; [p2]; [p3]]
            /\ prediction_of Mol MolFromSmiles Model feature_calculator predict
                 model "OCCc1ccn2cnccc12" = Some p1
            /\ prediction_of Mol MolFromSmiles Model feature_calculator predict
                 model "C1CC1Oc1cc2ccncn2c1" = Some p2
            /\ prediction_of Mol MolFromSmiles Model feature_calculator predict
                 model "CNC(=O)c1nccc2cccn12" = Some p3).
Proof.
  intros Mol MolFromSmiles Model feature_calculator predict model mols Hparse.
  destruct (predictMols_rows Mol MolFromSmiles Model feature_calculator predict
              model mols Hparse) as [values [Hrun Hall]].
  exists (map (fun p => [p]) values), values.
  split; [exact Hrun|]. split; [apply prediction_legends_rows|].
  assert (Hlen : List.length values = List.length mols)
    by (symmetry; exact (Forall2_length Hall)).
  split; [now rewrite length_map|]. split; [exact Hlen|]. split.
  - intros i smi Hi.
    destruct (Forall2_nth_error _ _ _ Hall i smi Hi) as [p [Hp Hpred]].
    exists p. split; [exact Hpred|]. split; [|exact Hp].
    rewrite nth_error_map, Hp. reflexivity.
  - intros ->. unfold list_of_smiles in Hall.
    inversion Hall as [|s1 p1 l1 v1 H1 Hall1]; subst.
    inversion Hall1 as [|s2 p2 l2 v2 H2 Hall2]; subst.
    inversion Hall2 as [|s3 p3 l3 v3 H3 Hall3]; subst.
    inversion Hall3; subst.
    exists p1, p2, p3. repeat split; assumption.
Qed.

Lemma predictMols_aligned_witness :
  exists predictions legends,
    predictMols string toy_parse Q toy_descriptor toy_predict 5%Q list_of_smiles
    = Some predictions
    /\ prediction_legends predictions = Some legends
    /\ List.length predictions = 3
    /\ List.length legends = 3.
Proof.
  destruct (predictMols_aligned string toy_parse Q toy_descriptor toy_predict
              5%Q list_of_smiles) as [predictions [legends [H1 [H2 [H3 [H4 _]]]]]].
  - intros smi Hin.
    assert (H : forallb (fun s => negb (String.eqb s "")) list_of_smiles = true)
      by reflexivity.
    rewrite forallb_forall in H. specialize (H smi Hin).
    unfold toy_parse. destruct (String.eqb smi ""); [discriminate | discriminate].
  - exists predictions, legends. repeat split; assumption.
Defined.

(* ================================================================== *)
(** * The cells on examples *)
(* ================================================================== *)

Example scaffolds_example :
  scaffolds_table Float64.mean example_dataset
  = [cyclopropane_row; pyridine_row; benzene_row]
  /\ map scaffold (scaffolds Float64.mean 1 example_dataset) = ["c1ccccc1"]
  /\ map scaffold (scaffolds Float64.mean 3 example_dataset) = [].
Proof. repeat split; vm_compute; reflexivity. Qed.

Example top_compounds_example :
  map Prepared.QSPRID (top_compounds 3 example_dataset)
  = ["P21802_4"; "P21802_2"; "P21802_1"]
  /\ List.length (top_compounds 10 example_dataset) = 5.
Proof. split; reflexivity. Qed.



Lemma min_count_filter_witness :
  (In benzene_row (scaffolds Float64.mean 2 example_dataset)
   <-> (2 < compound_count "c1ccccc1" example_dataset)%Z)
  /\ (~ In cyclopropane_row (scaffolds Float64.mean 2 example_dataset)
      <-> (compound_count "C1CC1" example_dataset <= 2)%Z).
Proof.
  split.
  - apply (proj1 (proj2 (min_count_filter Float64.mean 2)) example_dataset benzene_row).
    vm_compute. right. right. left. reflexivity.
  - apply (proj1 (proj2 (min_count_filter Float64.mean 2)) example_dataset
             cyclopropane_row).
    vm_compute. left. reflexivity.
Defined.

Lemma min_compounds_thresholds_witness :
  scaffolds Float64.mean 0 example_dataset = scaffolds_table Float64.mean example_dataset
  /\ scaffolds Float64.mean 5 example_dataset = []
  /\ drop_small 5 (scaffolds Float64.mean 0 example_dataset)
     = scaffolds Float64.mean 5 example_dataset.
Proof.
  destruct (min_compounds_thresholds Float64.mean example_dataset 0 5) as [H1 [H2 H3]].
  split; [apply H1; lia|]. split; [apply H2; simpl; lia | apply H3; lia].
Defined.

Lemma scaffold_index_round_trip_witness :
  getitem_int 2 (map scaffold (scaffolds Float64.mean 0 example_dataset))
  = Some "c1ccccc1"
  /\ scaffold_compounds Float64.mean 2 0 example_dataset
     = Some (scaffold_df "c1ccccc1" example_dataset).
Proof.
  apply (scaffold_index_round_trip Float64.mean 10 0 example_dataset 2 "c1ccccc1").
  vm_compute. right. right. left. reflexivity.
Defined.

Lemma scaffold_compounds_of_row_witness :
  exists compounds,
    scaffold_compounds Float64.mean 0 1 example_dataset = Some compounds
    /\ List.length compounds = 3
    /\ Average_pchembl_value benzene_row
       = Some (Float64.mean (targets (sharing "c1ccccc1" example_dataset))).
Proof.
  assert (Hrow : nth_error (scaffolds Float64.mean 1 example_dataset) 0
                 = Some benzene_row) by (vm_compute; reflexivity).
  destruct (scaffold_compounds_of_row Float64.mean 0 1 example_dataset benzene_row Hrow)
    as [compounds [H1 [_ [H3 [_ [_ [_ H7]]]]]]].
  exists compounds. simpl in H3. injection H3 as H3.
  split; [exact H1|]. split; [now symmetry | exact H7].
Defined.

Lemma scaffold_index_first_last_witness :
  (scaffold_compounds Float64.mean SCAFFOLD_INDEX 0 example_dataset
   = Some (scaffold_df "C1CC1" example_dataset)
   /\ mean_ge cyclopropane_row benzene_row)
  /\ (scaffold_compounds Float64.mean (-1) 0 example_dataset
      = Some (scaffold_df "c1ccccc1" example_dataset)
      /\ mean_ge pyridine_row benzene_row).
Proof.
  assert (Hframe : scaffolds Float64.mean 0 example_dataset
                   = [cyclopropane_row; pyridine_row; benzene_row])
    by (vm_compute; reflexivity).
  destruct (scaffold_index_first_last Float64.mean 0 example_dataset) as [Hfirst Hlast].
  split.
  - destruct (Hfirst cyclopropane_row [pyridine_row; benzene_row] Hframe) as [H1 H2].
    split; [exact H1|]. apply H2. right. left. reflexivity.
  - destruct (Hlast [cyclopropane_row; pyridine_row] benzene_row Hframe) as [H1 H2].
    split; [exact H1|]. apply H2. right. left. reflexivity.
Defined.
